(** * useRoomRateAvailabilityCalendar: the paginated calendar hook

    A shallow embedding of [src/app/(hooks)/useRoomRateAvailabilityCalendar.ts].

    The hook builds the option object it hands to [useInfiniteQuery]:
    [queryKey], [queryFn] (= [fetchData]), [initialPageParam],
    [getNextPageParam] and [staleTime].  [fetchData] builds a URL, sets its
    query string from a [URLSearchParams] object and awaits [Fetch].

    - JavaScript numbers are IEEE 754 binary64 values: Rocq's primitive
      floats.
    - Strings are byte strings (the UTF-8 encoding of the JavaScript string).
    - An [async] function is a function from the state of the outside world
      to a settled promise, the new state of the world and the requests that
      were handed to the transport on the way.
    - What the hook imports and does not define ([Fetch] from [@/utils/Fetch],
      the [URL] parser, [process.env]) is a field of the class [Platform]. *)

From Stdlib Require Import ZArith List Bool Ascii String Lia.
From Stdlib Require Import Floats.PrimFloat Floats.FloatOps Floats.SpecFloat.
From Stdlib Require Import Numbers.DecimalString.
Import ListNotations.

Open Scope list_scope.
Open Scope string_scope.

(* ================================================================= *)
(** ** JavaScript values the hook touches *)

(** [number]: a binary64 value. *)
Definition number : Type := float.

(** What a field declared [nextCursor?: number] holds after the response
    body was decoded: nothing, JSON's [null], or a number. *)
Inductive JsValue : Type :=
| undefined
| null
| Num (n : number).

(** ToBoolean on numbers: [+0], [-0] and [NaN] are falsy, every other number
    is truthy. *)
Definition Number_ToBoolean (n : number) : bool :=
  negb (PrimFloat.is_zero n || PrimFloat.is_nan n).

(** ToBoolean, as the condition of an [if] applies it. *)
Definition ToBoolean (v : JsValue) : bool :=
  match v with
  | undefined => false
  | null => false
  | Num n => Number_ToBoolean n
  end.

(** [v != null], the test the query layer applies to the result of
    [getNextPageParam]. *)
Definition is_nullish (v : JsValue) : bool :=
  match v with
  | undefined | null => true
  | Num _ => false
  end.

(** The integer a finite binary64 value [m * 2^e] denotes, when it is an
    integer below [2^53]; on these [Number::toString] prints the decimal
    digits of the integer. *)
Definition safe_integer (m : positive) (e : Z) : option Z :=
  let z :=
    if (0 <=? e)%Z then Some (Z.pos m * 2 ^ e)%Z
    else if (Z.pos m mod 2 ^ (- e) =? 0)%Z then Some (Z.pos m / 2 ^ (- e))%Z
    else None in
  match z with
  | Some z => if (z <? 2 ^ 53)%Z then Some z else None
  | None => None
  end.

Definition decimal_digits (z : Z) : string :=
  NilZero.string_of_uint (N.to_uint (Z.to_N z)).

(** [Number::toString] (radix 10).  [other] prints the numbers that are not
    integers below [2^53] (fractions, exponent notation); the hook's cursors
    and property ids are not of that kind, and nothing below looks into it. *)
Definition Number_toString (other : number -> string) (n : number) : string :=
  match Prim2SF n with
  | S754_nan => "NaN"
  | S754_zero _ => "0"
  | S754_infinity s => if s then "-Infinity" else "Infinity"
  | S754_finite s m e =>
      match safe_integer m e with
      | Some z => (if s then "-" else "") ++ decimal_digits z
      | None => other n
      end
  end.

(** A template literal prints a missing value as ["undefined"]. *)
Definition template_string (v : option string) : string :=
  match v with
  | Some s => s
  | None => "undefined"
  end.

(** A thrown value: an [Error] object with its [name] and [message]. *)
Record JsError : Type := mkError { name : string; message : string }.

(** How a promise settles. *)
Inductive Settled (A : Type) : Type :=
| Fulfilled (v : A)
| Rejected (e : JsError).
Arguments Fulfilled {A} v.
Arguments Rejected {A} e.

(* ================================================================= *)
(** ** URLSearchParams and URL *)

(** The application/x-www-form-urlencoded percent-encode set leaves ASCII
    alphanumerics and [*-._] as they are. *)
Definition is_alnum (c : ascii) : bool :=
  let n := nat_of_ascii c in
  ((48 <=? n) && (n <=? 57) || (65 <=? n) && (n <=? 90)
   || (97 <=? n) && (n <=? 122))%nat.

Definition urlencoded_keeps (c : ascii) : bool :=
  is_alnum c
  || Ascii.eqb c "*" || Ascii.eqb c "-" || Ascii.eqb c "." || Ascii.eqb c "_".

Definition hex_digit (n : nat) : ascii :=
  if (n <? 10)%nat then ascii_of_nat (48 + n) else ascii_of_nat (55 + n).

(** The urlencoded byte serializer: space becomes [+], a byte outside the
    set becomes [%XX] in upper-case hexadecimal. *)
Fixpoint urlencoded_serialize_bytes (s : string) : string :=
  match s with
  | EmptyString => EmptyString
  | String c r =>
      if Ascii.eqb c " " then String "+" (urlencoded_serialize_bytes r)
      else if urlencoded_keeps c then String c (urlencoded_serialize_bytes r)
      else
        let n := nat_of_ascii c in
        String "%" (String (hex_digit (n / 16)) (String (hex_digit (n mod 16))
          (urlencoded_serialize_bytes r)))
  end.

(** A [URLSearchParams] object: its list of name-value pairs, in insertion
    order. *)
Definition URLSearchParams : Type := list (string * string).

(** [URLSearchParams.prototype.toString]: the urlencoded serializer. *)
Definition URLSearchParams_toString (l : URLSearchParams) : string :=
  String.concat "&"
    (map (fun p => urlencoded_serialize_bytes (fst p) ++ "="
                   ++ urlencoded_serialize_bytes (snd p)) l).

(** A [URL] object: [href] without its query, and the query (without its
    leading [?]).  The parser that produces it from a string is the
    platform's. *)
Record URL : Type := mkURL { resource : string; search : string }.

(** The [search] setter.  The serializer's output has no character the
    setter would strip or encode, so the query is stored as given. *)
Definition URL_set_search (u : URL) (s : string) : URL :=
  {| resource := resource u; search := s |}.

(** The server's side of the same encoding: the urlencoded parser.  The hook
    does not call it; it says what a request carries. *)
Definition hex_value (c : ascii) : option nat :=
  let n := nat_of_ascii c in
  if ((48 <=? n) && (n <=? 57))%nat then Some (n - 48)%nat
  else if ((65 <=? n) && (n <=? 70))%nat then Some (n - 55)%nat
  else if ((97 <=? n) && (n <=? 102))%nat then Some (n - 87)%nat
  else None.

Definition hex_pair (h l : ascii) : option ascii :=
  match hex_value h, hex_value l with
  | Some a, Some b => Some (ascii_of_nat (16 * a + b))
  | _, _ => None
  end.

Fixpoint percent_decode (s : string) : string :=
  match s with
  | EmptyString => EmptyString
  | String c r =>
      match r with
      | String h (String l r') =>
          match (if Ascii.eqb c "%" then hex_pair h l else None) with
          | Some b => String b (percent_decode r')
          | None => String c (percent_decode r)
          end
      | _ => String c (percent_decode r)
      end
  end.

Fixpoint plus_to_space (s : string) : string :=
  match s with
  | EmptyString => EmptyString
  | String c r =>
      String (if Ascii.eqb c "+" then " "%char else c) (plus_to_space r)
  end.

Definition urlencoded_decode (s : string) : string :=
  percent_decode (plus_to_space s).

(** [s] cut at every [sep]. *)
Fixpoint split_on (sep : ascii) (s : string) : list string :=
  match s with
  | EmptyString => [EmptyString]
  | String c r =>
      if Ascii.eqb c sep then EmptyString :: split_on sep r
      else match split_on sep r with
           | h :: t => String c h :: t
           | [] => [String c EmptyString]
           end
  end.

(** [s] cut at its first [sep]; the second part is empty when there is
    none. *)
Fixpoint split_first (sep : ascii) (s : string) : string * string :=
  match s with
  | EmptyString => (EmptyString, EmptyString)
  | String c r =>
      if Ascii.eqb c sep then (EmptyString, r)
      else let (a, b) := split_first sep r in (String c a, b)
  end.

Definition urlencoded_parse (s : string) : URLSearchParams :=
  flat_map
    (fun bytes =>
       match bytes with
       | EmptyString => []
       | _ => let (n, v) := split_first "=" bytes in
              [(urlencoded_decode n, urlencoded_decode v)]
       end)
    (split_on "&" s).

(** [URLSearchParams.prototype.get]: the value of the first pair named
    [key]. *)
Fixpoint URLSearchParams_get (key : string) (l : URLSearchParams)
  : option string :=
  match l with
  | [] => None
  | (k, v) :: r => if String.eqb k key then Some v else URLSearchParams_get key r
  end.

(* ================================================================= *)
(** ** The interfaces of the hook *)

(** [Dayjs]: a calendar date.  The response body carries dates as ISO
    [YYYY-MM-DD] strings and the hook does not touch them. *)
Definition Dayjs : Type := string.

Module IRoomInventory.
Record t : Type := mk {
  id : string;
  date : Dayjs;
  available : number;
  status : bool;
  booked : number }.
End IRoomInventory.

Module IRoomRatePlans.
Record t : Type := mk { id : number; name : string }.
End IRoomRatePlans.

Module IRateCalendar.
Record t : Type := mk {
  id : string;
  date : Dayjs;
  rate : number;
  min_length_of_stay : number;
  reservation_deadline : number }.
End IRateCalendar.

(** [IRatePlanCalendar extends IRoomRatePlans]. *)
Module IRatePlanCalendar.
Record t : Type := mk {
  id : number;
  name : string;
  calendar : list IRateCalendar.t }.
End IRatePlanCalendar.

Module IRoomCategory.
Record t : Type := mk { id : string; name : string; occupancy : number }.
End IRoomCategory.

(** [IRoomCategoryCalender extends IRoomCategory]. *)
Module IRoomCategoryCalender.
Record t : Type := mk {
  id : string;
  name : string;
  occupancy : number;
  inventory_calendar : list IRoomInventory.t;
  rate_plans : list IRatePlanCalendar.t }.
End IRoomCategoryCalender.

Record IParams : Type := mkParams {
  property_id : number;
  start_date : string;
  end_date : string }.

Record IResponse : Type := mkResponse {
  room_categories : list IRoomCategoryCalender.t;
  nextCursor : JsValue }.

(** What [Fetch<T>] resolves to: the hook reads its [data]. *)
Record FetchResult (T : Type) : Type := mkResult { data : T }.
Arguments mkResult {T} data.
Arguments data {T} f.

(** The argument of [Fetch]. *)
Record FetchArgs : Type := mkArgs { method : string; url : URL }.

(** The argument the query layer passes to [queryFn]; [fetchData] reads
    [pageParam] out of it. *)
Record QueryFunctionContext : Type := mkContext { pageParam : option number }.

(* ================================================================= *)
(** ** The platform, and async functions *)

(** What the hook uses and does not define. *)
Class Platform : Type := {
  (** the state of the network and the server *)
  World : Type;
  (** [process.env.NEXT_PUBLIC_BACKEND_URL] *)
  NEXT_PUBLIC_BACKEND_URL : option string;
  (** the URL parser behind [new URL(s)], [None] where it fails *)
  URL_parse : string -> option URL;
  (** [Number::toString] outside the integers below [2^53] *)
  Number_toString_other : number -> string;
  (** [Fetch] of [@/utils/Fetch]: the HTTP transport *)
  Fetch : FetchArgs -> World -> Settled (FetchResult IResponse) * World }.

(** One run of an async function: how its promise settled, the world after
    it, and the calls of [Fetch] it made, in order. *)
Record Ran {P : Platform} (A : Type) : Type := mkRan {
  outcome : Settled A;
  world_after : World;
  issued : list FetchArgs }.
Arguments mkRan {P A} outcome world_after issued.
Arguments outcome {P A} r.
Arguments world_after {P A} r.
Arguments issued {P A} r.

Definition Async {P : Platform} (A : Type) : Type := World -> Ran A.

Section Async.
Context {P : Platform}.

Definition ret {A} (a : A) : Async A :=
  fun w => mkRan (Fulfilled a) w [].

Definition throw {A} (e : JsError) : Async A :=
  fun w => mkRan (Rejected e) w [].

(** Sequencing: a rejection ends the function, as an uncaught exception
    does. *)
Definition bind {A B} (m : Async A) (k : A -> Async B) : Async B :=
  fun w =>
    let r := m w in
    match outcome r with
    | Fulfilled a =>
        let r' := k a (world_after r) in
        mkRan (outcome r') (world_after r') (issued r ++ issued r')%list
    | Rejected e => mkRan (Rejected e) (world_after r) (issued r)
    end.

(** [await Fetch(args)]: one call of the transport. *)
Definition await_Fetch (args : FetchArgs) : Async (FetchResult IResponse) :=
  fun w => let (r, w') := Fetch args w in mkRan r w' [args].

(** [new URL(s)] throws a [TypeError] where the parser fails. *)
Definition new_URL (s : string) : Async URL :=
  match URL_parse s with
  | Some u => ret u
  | None => throw {| name := "TypeError"; message := "Invalid URL" |}
  end.

Definition toString (n : number) : string :=
  Number_toString Number_toString_other n.
End Async.

Notation "x <- m ;; k" := (bind m (fun x => k))
  (at level 61, m at next level, right associativity).

(* ================================================================= *)
(** ** The hook *)

(** The option object [useInfiniteQuery] receives. *)
Module UseInfiniteQuery.
Record Options {P : Platform} : Type := mk {
  queryKey : string * IParams;
  queryFn : QueryFunctionContext -> Async (FetchResult IResponse);
  initialPageParam : number;
  getNextPageParam : FetchResult IResponse -> JsValue;
  staleTime : number }.
End UseInfiniteQuery.

Section Hook.
Context {P : Platform}.

(** [const fetchData = async ({pageParam = 0}) => ...] *)
Definition fetchData (params : IParams) (ctx : QueryFunctionContext)
  : Async (FetchResult IResponse) :=
  let pageParam := match pageParam ctx with
                   | Some n => n
                   | None => 0%float
                   end in
  url <- new_URL (template_string NEXT_PUBLIC_BACKEND_URL
                  ++ "/api/v1/property/" ++ toString (property_id params)
                  ++ "/rate-calendar/assessment") ;;
  let url := URL_set_search url
               (URLSearchParams_toString
                  [ ("start_date", start_date params);
                    ("end_date", end_date params);
                    ("cursor", toString pageParam);
                    ("fields", "id,name,rate") ]) in
  await_Fetch {| method := "GET"; url := url |}.

(** [getNextPageParam: (lastpage) => { if (...) { return ... } else { undefined } }]:
    the [else] branch returns nothing, and so does the function: its value
    is [undefined]. *)
Definition getNextPageParam (lastpage : FetchResult IResponse) : JsValue :=
  if ToBoolean (nextCursor (data lastpage))
  then nextCursor (data lastpage)
  else undefined.

Definition queryKey (params : IParams) : string * IParams :=
  ("property_room_calendar", params).

Definition initialPageParam : number := 0%float.

(** [staleTime: 2 * 60 * 1000], in milliseconds. *)
Definition staleTime : number := (2 * 60 * 1000)%float.

Definition useRoomRateAvailabilityCalendar (params : IParams)
  : UseInfiniteQuery.Options :=
  {| UseInfiniteQuery.queryKey := queryKey params;
     UseInfiniteQuery.queryFn := fetchData params;
     UseInfiniteQuery.initialPageParam := initialPageParam;
     UseInfiniteQuery.getNextPageParam := getNextPageParam;
     UseInfiniteQuery.staleTime := staleTime |}.
End Hook.

(* ================================================================= *)
(** ** The query layer, as far as a pagination run goes

    [useInfiniteQuery] is a library function.  This is the part of its
    contract a run of pages goes through: the first page is asked for with
    [initialPageParam]; there is a next page when [getNextPageParam] of the
    last page is neither [undefined] nor [null]; the next page is asked for
    with that value; a page that arrived is appended.  The caller is the
    README's [handleFetchMore]: [if (hasNextPage) fetchNextPage()].  The
    layer's retries, cache and observers are not modelled. *)
Module InfiniteQuery.
Import UseInfiniteQuery.

Record InfiniteData : Type := mk {
  pages : list (FetchResult IResponse);
  pageParams : list number }.

Section Run.
Context {P : Platform}.
Variable options : Options.

Definition lastPage (d : InfiniteData) : option (FetchResult IResponse) :=
  last (map Some (pages d)) None.

Definition hasNextPage (d : InfiniteData) : bool :=
  match lastPage d with
  | Some p => negb (is_nullish (getNextPageParam options p))
  | None => false
  end.

Definition fetchPage (d : InfiniteData) (param : number)
  : Async InfiniteData :=
  page <- queryFn options {| pageParam := Some param |} ;;
  ret {| pages := (pages d ++ [page])%list;
         pageParams := (pageParams d ++ [param])%list |}.

Definition fetchFirstPage : Async InfiniteData :=
  fetchPage {| pages := []; pageParams := [] |} (initialPageParam options).

Definition fetchNextPage (d : InfiniteData) : Async InfiniteData :=
  match lastPage d with
  | Some p =>
      match getNextPageParam options p with
      | Num n => fetchPage d n
      | undefined | null => ret d
      end
  | None => ret d
  end.

(** [handleFetchMore], called [n] times. *)
Fixpoint fetchMore (n : nat) (d : InfiniteData) : Async InfiniteData :=
  match n with
  | O => ret d
  | S k =>
      if hasNextPage d
      then d' <- fetchNextPage d ;; fetchMore k d'
      else ret d
  end.

(** A run: the first page, then [n] calls of [handleFetchMore]. *)
Definition run (n : nat) : Async InfiniteData :=
  d <- fetchFirstPage ;; fetchMore n d.
End Run.
End InfiniteQuery.

(* ================================================================= *)
(** ** The words of the specification *)



Fixpoint distinct (l : list string) : bool :=
  match l with
  | [] => true
  | x :: r => negb (existsb (String.eqb x) r) && distinct r
  end.

Definition in_range (lo hi : string) (d : Dayjs) : bool :=
  String.leb lo d && String.leb d hi.

Definition category_dates (c : IRoomCategoryCalender.t) : list Dayjs :=
  (map IRoomInventory.date (IRoomCategoryCalender.inventory_calendar c)
   ++ flat_map (fun rp => map IRateCalendar.date (IRatePlanCalendar.calendar rp))
        (IRoomCategoryCalender.rate_plans c))%list.

(** The data-model invariants of a page: the ids of its room categories are
    unique and its dates fall within [[start_date, end_date]]. *)
Definition page_valid (params : IParams) (r : IResponse) : bool :=
  distinct (map IRoomCategoryCalender.id (room_categories r))
  && forallb (in_range (start_date params) (end_date params))
       (flat_map category_dates (room_categories r)).

(** The cursor a request carries, as the server decodes it. *)
Definition cursor_of (a : FetchArgs) : option string :=
  URLSearchParams_get "cursor" (urlencoded_parse (search (url a))).

(* ================================================================= *)
(** ** Platforms to run the hook on *)

(** The first step of the URL parser: without a base, a string is a URL only
    if it starts with a scheme, a letter followed by letters, digits or
    [+-.] up to a colon.  The strings used below are in normal form already,
    so the parser keeps them as they are. *)
Definition is_alpha (c : ascii) : bool :=
  let n := nat_of_ascii c in
  ((65 <=? n) && (n <=? 90) || (97 <=? n) && (n <=? 122))%nat.

Fixpoint scheme_rest (s : string) : bool :=
  match s with
  | EmptyString => false
  | String c r =>
      if Ascii.eqb c ":" then true
      else if is_alnum c || Ascii.eqb c "+" || Ascii.eqb c "-" || Ascii.eqb c "."
      then scheme_rest r
      else false
  end.

Definition has_scheme (s : string) : bool :=
  match s with
  | EmptyString => false
  | String c r => is_alpha c && scheme_rest r
  end.

Definition absolute_URL_parse (s : string) : option URL :=
  if has_scheme s then Some {| resource := s; search := "" |} else None.

Definition inventory_on (d : Dayjs) : IRoomInventory.t :=
  IRoomInventory.mk ("inv-" ++ d) d 5%float true 1%float.

Definition rate_on (d : Dayjs) : IRateCalendar.t :=
  IRateCalendar.mk ("rate-" ++ d) d 120%float 1%float 0%float.

Definition category (id : string) (dates : list Dayjs) : IRoomCategoryCalender.t :=
  IRoomCategoryCalender.mk id id 2%float
    (map inventory_on dates)
    [IRatePlanCalendar.mk 1%float "standard" (map rate_on dates)].

Definition march_2025 : IParams :=
  {| property_id := 42%float;
     start_date := "2025-03-01";
     end_date := "2025-03-31" |}.

Definition page (categories : list IRoomCategoryCalender.t) (next : JsValue)
  : FetchResult IResponse :=
  {| data := {| room_categories := categories; nextCursor := next |} |}.

(** The scenario of the specification: three pages, reached with the cursors
    0, 11 and 21. *)
Definition page_1 : FetchResult IResponse :=
  page [category "deluxe" ["2025-03-01"; "2025-03-10"]] (Num 11%float).
Definition page_2 : FetchResult IResponse :=
  page [category "suite" ["2025-03-11"; "2025-03-20"]] (Num 21%float).
Definition page_3 : FetchResult IResponse :=
  page [category "family" ["2025-03-21"; "2025-03-31"]] undefined.

Definition not_found : JsError :=
  {| name := "NetworkError"; message := "404" |}.

Definition scenario_server (a : FetchArgs) (served : nat)
  : Settled (FetchResult IResponse) * nat :=
  (match cursor_of a with
   | Some c =>
       if String.eqb c "0" then Fulfilled page_1
       else if String.eqb c "11" then Fulfilled page_2
       else if String.eqb c "21" then Fulfilled page_3
       else Rejected not_found
   | None => Rejected not_found
   end, S served).

Definition scenario : Platform :=
  {| World := nat;
     NEXT_PUBLIC_BACKEND_URL := Some "https://api.example.com";
     URL_parse := absolute_URL_parse;
     Number_toString_other := fun _ => EmptyString;
     Fetch := scenario_server |}.



(** A server whose page names one room category twice and carries a date
    after [end_date]. *)
Definition page_invalid : FetchResult IResponse :=
  page [category "deluxe" ["2025-03-01"]; category "deluxe" ["2025-04-02"]]
       undefined.

Definition careless : Platform :=
  {| World := nat;
     NEXT_PUBLIC_BACKEND_URL := Some "https://api.example.com";
     URL_parse := absolute_URL_parse;
     Number_toString_other := fun _ => EmptyString;
     Fetch := fun _ served => (Fulfilled page_invalid, S served) |}.

(** A server that answers the first cursor with the next cursor 0. *)
Definition page_zero : FetchResult IResponse :=
  page [category "deluxe" ["2025-03-01"]] (Num 0%float).

Definition zero_cursor : Platform :=
  {| World := nat;
     NEXT_PUBLIC_BACKEND_URL := Some "https://api.example.com";
     URL_parse := absolute_URL_parse;
     Number_toString_other := fun _ => EmptyString;
     Fetch := fun _ served => (Fulfilled page_zero, S served) |}.

(** A build without [NEXT_PUBLIC_BACKEND_URL]. *)
Definition unconfigured : Platform :=
  {| World := nat;
     NEXT_PUBLIC_BACKEND_URL := None;
     URL_parse := absolute_URL_parse;
     Number_toString_other := fun _ => EmptyString;
     Fetch := scenario_server |}.

(** [c] does not occur in [s]. *)
Fixpoint free_of (c : ascii) (s : string) : bool :=
  match s with
  | EmptyString => true
  | String a r => negb (Ascii.eqb a c) && free_of c r
  end.



Definition april_2025 : IParams :=
  {| property_id := 42%float;
     start_date := "2025-04-01";
     end_date := "2025-04-30" |}.

(** Every character of [s] passes [f]. *)
Fixpoint string_forallb (f : ascii -> bool) (s : string) : bool :=
  match s with
  | EmptyString => true
  | String a r => f a && string_forallb f r
  end.

(** The characters a serialized query is made of: the ones the serializer
    keeps, its [+] and [%], and the separators [=] and [&]. *)
Definition query_char (c : ascii) : bool :=
  urlencoded_keeps c
  || Ascii.eqb c "+" || Ascii.eqb c "%" || Ascii.eqb c "=" || Ascii.eqb c "&".

(** The cursors of a run hang together: there is a first page, asked for
    with [initialPageParam]; every later page was asked for with the
    [nextCursor] of the page before it, and that was a truthy number. *)
Definition cursor_chain (d : InfiniteQuery.InfiniteData) : Prop :=
  InfiniteQuery.pages d <> []
  /\ map Num (InfiniteQuery.pageParams d)
     = Num initialPageParam
       :: map (fun p => nextCursor (data p))
            (removelast (InfiniteQuery.pages d))
  /\ Forall (fun n => Number_ToBoolean n = true)
       (tl (InfiniteQuery.pageParams d)).

(** The server answers the cursor [c] with the page [p]: whatever the state
    of the world, [Fetch] resolves with [p] on every request whose query
    carries [cursor = c.toString()]. *)
Definition answers {P : Platform} (c : number) (p : FetchResult IResponse)
  : Prop :=
  forall (req : FetchArgs) (w : World),
    cursor_of req = Some (toString c) ->
    fst (Fetch req w) = Fulfilled p.

(** The server holds the pages [ps] behind the cursor [c]: it answers [c]
    with the first of them; that page names, by a truthy [nextCursor], the
    cursor behind which the rest is held; the last page names none. *)
Fixpoint serves {P : Platform} (c : number)
    (ps : list (FetchResult IResponse)) : Prop :=
  match ps with
  | [] => False
  | p :: rest =>
      answers c p
      /\ match rest with
         | [] => ToBoolean (nextCursor (data p)) = false
         | _ :: _ =>
             exists c',
               nextCursor (data p) = Num c'
               /\ Number_ToBoolean c' = true
               /\ serves c' rest
         end
  end.


(** [await fetchNextPage()], [n] times in a row. *)
Fixpoint fetchNextPages {P : Platform} (options : UseInfiniteQuery.Options)
    (n : nat) (d : InfiniteQuery.InfiniteData)
  : Async InfiniteQuery.InfiniteData :=
  match n with
  | O => ret d
  | S k =>
      d' <- InfiniteQuery.fetchNextPage options d ;;
      fetchNextPages options k d'
  end.

(* ================================================================= *)
(** * Properties *)

(** ** The query string: what is serialized is what the server parses *)

Section Urlencoded.

Lemma percent_decode_plain (c : ascii) (s : string) :
  Ascii.eqb c "%" = false ->
  percent_decode (String c s) = String c (percent_decode s).
Proof.
  intros Hc. destruct s as [|h [|l r]]; simpl; try reflexivity.
  now rewrite Hc.
Qed.

Lemma percent_decode_escape (h l b : ascii) (s : string) :
  hex_pair h l = Some b ->
  percent_decode (String "%" (String h (String l s)))
  = String b (percent_decode s).
Proof.
  intros Hb. simpl. now rewrite Hb.
Qed.

Lemma kept_is_plain (c : ascii) :
  urlencoded_keeps c = true ->
  Ascii.eqb c "+" = false /\ Ascii.eqb c "%" = false
  /\ Ascii.eqb c "&" = false /\ Ascii.eqb c "=" = false.
Proof.
  destruct c as [[] [] [] [] [] [] [] []]; vm_compute; intros H;
    try discriminate H; repeat split.
Qed.

Lemma escape_digits (c : ascii) :
  let h := hex_digit (nat_of_ascii c / 16) in
  let l := hex_digit (nat_of_ascii c mod 16) in
  hex_pair h l = Some c
  /\ Ascii.eqb h "+" = false /\ Ascii.eqb l "+" = false
  /\ Ascii.eqb h "&" = false /\ Ascii.eqb l "&" = false
  /\ Ascii.eqb h "=" = false /\ Ascii.eqb l "=" = false.
Proof.
  destruct c as [[] [] [] [] [] [] [] []]; vm_compute; repeat split.
Qed.

Lemma urlencoded_decode_serialize (s : string) :
  urlencoded_decode (urlencoded_serialize_bytes s) = s.
Proof.
  unfold urlencoded_decode.
  induction s as [|c r IH]; [reflexivity|].
  cbn [urlencoded_serialize_bytes].
  destruct (Ascii.eqb c " ") eqn:Hsp.
  - apply Ascii.eqb_eq in Hsp. subst c.
    cbn [plus_to_space]. change (Ascii.eqb "+" "+") with true. cbv iota.
    rewrite percent_decode_plain by reflexivity. now rewrite IH.
  - destruct (urlencoded_keeps c) eqn:Hk.
    + destruct (kept_is_plain c Hk) as (Hplus & Hpct & _).
      cbn [plus_to_space]. rewrite Hplus.
      rewrite percent_decode_plain by exact Hpct. now rewrite IH.
    + destruct (escape_digits c) as (Hp & Hh & Hl & _).
      cbv zeta. cbn [plus_to_space].
      change (Ascii.eqb "%" "+") with false. cbv iota.
      rewrite Hh, Hl.
      rewrite (percent_decode_escape _ _ c) by exact Hp. now rewrite IH.
Qed.

Lemma serialize_free_of (s : string) :
  free_of "&" (urlencoded_serialize_bytes s) = true
  /\ free_of "=" (urlencoded_serialize_bytes s) = true.
Proof.
  induction s as [|c r [IHa IHe]]; [split; reflexivity|].
  cbn [urlencoded_serialize_bytes].
  destruct (Ascii.eqb c " ") eqn:Hsp.
  - cbn [free_of]. rewrite IHa, IHe. split; reflexivity.
  - destruct (urlencoded_keeps c) eqn:Hk.
    + destruct (kept_is_plain c Hk) as (_ & _ & Ha & He).
      cbn [free_of]. rewrite Ha, He, IHa, IHe. split; reflexivity.
    + destruct (escape_digits c) as (_ & _ & _ & Hha & Hla & Hhe & Hle).
      cbv zeta. cbn [free_of]. rewrite Hha, Hla, Hhe, Hle, IHa, IHe.
      split; reflexivity.
Qed.

Lemma split_first_at (sep : ascii) (a b : string) :
  free_of sep a = true ->
  split_first sep (a ++ String sep b) = (a, b).
Proof.
  induction a as [|c r IH]; cbn [free_of append split_first]; intros H.
  - now rewrite Ascii.eqb_refl.
  - apply andb_true_iff in H as [Hc Hr]. apply negb_true_iff in Hc.
    rewrite Hc, (IH Hr). reflexivity.
Qed.

Lemma split_on_whole (sep : ascii) (a : string) :
  free_of sep a = true -> split_on sep a = [a].
Proof.
  induction a as [|c r IH]; cbn [free_of split_on]; intros H;
    [reflexivity|].
  apply andb_true_iff in H as [Hc Hr]. apply negb_true_iff in Hc.
  rewrite Hc, (IH Hr). reflexivity.
Qed.

Lemma split_on_at (sep : ascii) (a b : string) :
  free_of sep a = true ->
  split_on sep (a ++ String sep b) = a :: split_on sep b.
Proof.
  induction a as [|c r IH]; cbn [free_of append split_on]; intros H.
  - now rewrite Ascii.eqb_refl.
  - apply andb_true_iff in H as [Hc Hr]. apply negb_true_iff in Hc.
    rewrite Hc, (IH Hr). reflexivity.
Qed.

Lemma free_of_app (c : ascii) (a b : string) :
  free_of c (a ++ b) = free_of c a && free_of c b.
Proof.
  induction a as [|x r IH]; cbn [free_of append]; [reflexivity|].
  now rewrite IH, andb_assoc.
Qed.

Lemma append_assoc (a b c : string) : (a ++ b) ++ c = a ++ (b ++ c).
Proof.
  induction a as [|x r IH]; cbn [append]; [reflexivity|]. now rewrite IH.
Qed.

Lemma pair_not_empty (a b : string) :
  a ++ String "=" b <> EmptyString.
Proof. destruct a; discriminate. Qed.

Lemma urlencoded_parse_pair (k v : string) :
  let bytes := urlencoded_serialize_bytes k ++ "="
               ++ urlencoded_serialize_bytes v in
  match bytes with
  | EmptyString => []
  | _ => let (n, w) := split_first "=" bytes in
         [(urlencoded_decode n, urlencoded_decode w)]
  end = [(k, v)].
Proof.
  cbv zeta.
  change (urlencoded_serialize_bytes k ++ "=" ++ urlencoded_serialize_bytes v)
    with (urlencoded_serialize_bytes k
          ++ String "=" (urlencoded_serialize_bytes v)).
  destruct (urlencoded_serialize_bytes k
            ++ String "=" (urlencoded_serialize_bytes v)) eqn:E.
  - now apply pair_not_empty in E.
  - rewrite <- E, split_first_at by apply serialize_free_of.
    now rewrite !urlencoded_decode_serialize.
Qed.

(** The urlencoded parser undoes [URLSearchParams.prototype.toString]. *)
Lemma urlencoded_parse_toString (l : URLSearchParams) :
  urlencoded_parse (URLSearchParams_toString l) = l.
Proof.
  unfold urlencoded_parse, URLSearchParams_toString.
  induction l as [|[k v] r IH]; [reflexivity|].
  assert (Hfree : free_of "&"
            (urlencoded_serialize_bytes k ++ "="
             ++ urlencoded_serialize_bytes v) = true).
  { rewrite free_of_app. cbn [append free_of].
    destruct (serialize_free_of k) as [-> _].
    destruct (serialize_free_of v) as [-> _]. reflexivity. }
  destruct r as [|q r'].
  - cbn [map concat fst snd].
    rewrite split_on_whole by exact Hfree.
    cbn [flat_map]. rewrite app_nil_r. apply urlencoded_parse_pair.
  - change (concat "&" (map ?f ((k, v) :: q :: r')))
      with (f (k, v) ++ String "&" (concat "&" (map f (q :: r')))).
    cbn [fst snd]. cbn [fst snd] in IH.
    rewrite split_on_at by exact Hfree.
    cbn [flat_map]. rewrite IH.
    pose proof (urlencoded_parse_pair k v) as Hp. cbv zeta in Hp.
    rewrite Hp. reflexivity.
Qed.

End Urlencoded.

(* ================================================================= *)
(** ** [fetchData] *)

Section FetchData.
Context {P : Platform}.
Variable params : IParams.

(** The request [fetchData] hands to [Fetch] once [new URL] returned [u]. *)
Lemma fetchData_valid_URL (ctx : QueryFunctionContext) (w : World) (u : URL) :
  URL_parse (template_string NEXT_PUBLIC_BACKEND_URL
             ++ "/api/v1/property/" ++ toString (property_id params)
             ++ "/rate-calendar/assessment") = Some u ->
  let req :=
    {| method := "GET";
       url := URL_set_search u
                (URLSearchParams_toString
                   [ ("start_date", start_date params);
                     ("end_date", end_date params);
                     ("cursor", toString match pageParam ctx with
                                         | Some n => n
                                         | None => 0%float
                                         end);
                     ("fields", "id,name,rate") ]) |} in
  fetchData params ctx w
  = mkRan (fst (Fetch req w)) (snd (Fetch req w)) [req].
Proof.
  intros Hu req. unfold fetchData, bind, new_URL. rewrite Hu.
  unfold ret, await_Fetch. cbn [outcome world_after issued app].
  fold req. destruct (Fetch req w) as [r w']. reflexivity.
Qed.

Lemma fetchData_invalid_URL (ctx : QueryFunctionContext) (w : World) :
  URL_parse (template_string NEXT_PUBLIC_BACKEND_URL
             ++ "/api/v1/property/" ++ toString (property_id params)
             ++ "/rate-calendar/assessment") = None ->
  fetchData params ctx w
  = mkRan (Rejected {| name := "TypeError"; message := "Invalid URL" |}) w [].
Proof.
  intros Hu. unfold fetchData, bind, new_URL. rewrite Hu. reflexivity.
Qed.

(** A call of [fetchData] either fails to build its URL and calls nothing,
    or calls [Fetch] once and settles as that call does. *)
Lemma fetchData_cases (ctx : QueryFunctionContext) (w : World) :
  fetchData params ctx w
  = mkRan (Rejected {| name := "TypeError"; message := "Invalid URL" |}) w []
  \/ exists req,
       method req = "GET"
       /\ urlencoded_parse (search (url req))
          = [ ("start_date", start_date params);
              ("end_date", end_date params);
              ("cursor", toString match pageParam ctx with
                                  | Some n => n
                                  | None => 0%float
                                  end);
              ("fields", "id,name,rate") ]
       /\ fetchData params ctx w
          = mkRan (fst (Fetch req w)) (snd (Fetch req w)) [req].
Proof.
  destruct (URL_parse (template_string NEXT_PUBLIC_BACKEND_URL
             ++ "/api/v1/property/" ++ toString (property_id params)
             ++ "/rate-calendar/assessment")) as [u|] eqn:Hu.
  - right. eexists. split; [|split].
    3: exact (fetchData_valid_URL ctx w u Hu).
    + reflexivity.
    + cbn [url search URL_set_search]. apply urlencoded_parse_toString.
  - left. exact (fetchData_invalid_URL ctx w Hu).
Qed.

(** C5, as the code has it: a page fetch hands [new URL] the string
    [{NEXT_PUBLIC_BACKEND_URL}/api/v1/property/{property_id}/rate-calendar/assessment].
    When [new URL] accepts it, the fetch issues exactly one request: a GET
    to that URL, with its query set to [start_date], [end_date], [cursor]
    and [fields] built from the parameters of the call, and the fetch
    settles as that request does.  When [new URL] rejects it, the fetch
    issues no request and rejects with a [TypeError]. *)
Theorem fetchData_one_GET_or_TypeError
    (ctx : QueryFunctionContext) (w : World) :
  match URL_parse (template_string NEXT_PUBLIC_BACKEND_URL
                   ++ "/api/v1/property/" ++ toString (property_id params)
                   ++ "/rate-calendar/assessment") with
  | Some u =>
      exists req,
        issued (fetchData params ctx w) = [req]
        /\ method req = "GET"
        /\ url req
           = URL_set_search u
               (URLSearchParams_toString
                  [ ("start_date", start_date params);
                    ("end_date", end_date params);
                    ("cursor", toString match pageParam ctx with
                                        | Some n => n
                                        | None => 0%float
                                        end);
                    ("fields", "id,name,rate") ])
        /\ resource (url req) = resource u
        /\ urlencoded_parse (search (url req))
           = [ ("start_date", start_date params);
               ("end_date", end_date params);
               ("cursor", toString match pageParam ctx with
                                   | Some n => n
                                   | None => 0%float
                                   end);
               ("fields", "id,name,rate") ]
        /\ outcome (fetchData params ctx w) = fst (Fetch req w)
        /\ world_after (fetchData params ctx w) = snd (Fetch req w)
  | None =>
      issued (fetchData params ctx w) = []
      /\ (exists e, outcome (fetchData params ctx w) = Rejected e
                    /\ name e = "TypeError")
      /\ world_after (fetchData params ctx w) = w
  end.
Proof.
  destruct (URL_parse (template_string NEXT_PUBLIC_BACKEND_URL
             ++ "/api/v1/property/" ++ toString (property_id params)
             ++ "/rate-calendar/assessment")) as [u|] eqn:Hu.
  - pose proof (fetchData_valid_URL ctx w u Hu) as Hrun. cbv zeta in Hrun.
    eexists. rewrite Hrun. cbn [issued outcome world_after].
    split; [reflexivity|].
    cbn [method url resource search URL_set_search].
    repeat split. apply urlencoded_parse_toString.
  - rewrite (fetchData_invalid_URL ctx w Hu).
    cbn [issued outcome world_after]. repeat split.
    eexists. split; reflexivity.
Qed.

(** C10: every request [fetchData] builds carries [fields] with the value
    [id,name,rate], whatever the parameters and the page parameter are; on
    the wire it reads [fields=id%2Cname%2Crate], last in the query.  And
    such a request is built and sent whenever [new URL] accepts the URL
    string; otherwise none is. *)
Theorem fetchData_fields_fixed (ctx : QueryFunctionContext) (w : World) :
  Forall
    (fun req =>
       URLSearchParams_get "fields" (urlencoded_parse (search (url req)))
       = Some "id,name,rate"
       /\ exists front,
            search (url req) = front ++ "&fields=id%2Cname%2Crate")
    (issued (fetchData params ctx w))
  /\ match URL_parse (template_string NEXT_PUBLIC_BACKEND_URL
                      ++ "/api/v1/property/" ++ toString (property_id params)
                      ++ "/rate-calendar/assessment") with
     | Some _ =>
         exists req,
           issued (fetchData params ctx w) = [req]
           /\ URLSearchParams_get "fields"
                (urlencoded_parse (search (url req)))
              = Some "id,name,rate"
     | None => issued (fetchData params ctx w) = []
     end.
Proof.
  destruct (URL_parse (template_string NEXT_PUBLIC_BACKEND_URL
             ++ "/api/v1/property/" ++ toString (property_id params)
             ++ "/rate-calendar/assessment")) as [u|] eqn:Hu.
  - pose proof (fetchData_valid_URL ctx w u Hu) as Hrun. cbv zeta in Hrun.
    rewrite Hrun. cbn [issued].
    assert (Hfields :
      URLSearchParams_get "fields"
        (urlencoded_parse
           (search
              (URL_set_search u
                 (URLSearchParams_toString
                    [ ("start_date", start_date params);
                      ("end_date", end_date params);
                      ("cursor", toString match pageParam ctx with
                                          | Some n => n
                                          | None => 0%float
                                          end);
                      ("fields", "id,name,rate") ]))))
      = Some "id,name,rate").
    { cbn [search URL_set_search]. rewrite urlencoded_parse_toString.
      reflexivity. }
    split.
    + constructor; [|constructor]. cbn [url]. split; [exact Hfields|].
      cbn [search URL_set_search].
      exists (URLSearchParams_toString
                [ ("start_date", start_date params);
                  ("end_date", end_date params);
                  ("cursor", toString match pageParam ctx with
                                      | Some n => n
                                      | None => 0%float
                                      end) ]).
      unfold URLSearchParams_toString. cbn [map concat fst snd].
      rewrite !append_assoc. reflexivity.
    + eexists. split; [reflexivity | exact Hfields].
  - rewrite (fetchData_invalid_URL ctx w Hu). split; [constructor | reflexivity].
Qed.


(** [fetchData] resolves with what its one call of [Fetch] resolves
    with. *)
Lemma fetchData_resolves_as_Fetch
    (ctx : QueryFunctionContext) (w : World) (req : FetchArgs)
    (response : FetchResult IResponse) :
  issued (fetchData params ctx w) = [req] ->
  fst (Fetch req w) = Fulfilled response ->
  outcome (fetchData params ctx w) = Fulfilled response.
Proof.
  destruct (fetchData_cases ctx w) as [Hrun | (req' & _ & _ & Hrun)];
    rewrite Hrun; cbn [outcome issued]; intros Hreq Hres.
  - discriminate Hreq.
  - injection Hreq as ->. exact Hres.
Qed.

(** A call of [fetchData] that resolves has made its one request. *)
Lemma fetchData_resolved_one_request
    (ctx : QueryFunctionContext) (w : World)
    (response : FetchResult IResponse) :
  outcome (fetchData params ctx w) = Fulfilled response ->
  exists req, issued (fetchData params ctx w) = [req].
Proof.
  destruct (fetchData_cases ctx w) as [Hrun | (req & _ & _ & Hrun)];
    rewrite Hrun; cbn [outcome issued]; intros H.
  - discriminate H.
  - now exists req.
Qed.

(** Every request of [fetchData] carries the page parameter, printed by
    [toString], as its [cursor]. *)
Lemma fetchData_sends_cursor (ctx : QueryFunctionContext) (w : World) :
  Forall
    (fun req =>
       cursor_of req
       = Some (toString match pageParam ctx with
                        | Some n => n
                        | None => 0%float
                        end))
    (issued (fetchData params ctx w)).
Proof.
  destruct (fetchData_cases ctx w) as [Hrun | (req & _ & Hq & Hrun)];
    rewrite Hrun; cbn [issued]; constructor; [|constructor].
  unfold cursor_of. rewrite Hq. reflexivity.
Qed.

End FetchData.

(* ================================================================= *)
(** ** A pagination run *)

Section Pagination.
Import InfiniteQuery.
Context {P : Platform}.
Variable params : IParams.

(** Sequencing after a step that resolved. *)
Lemma bind_resolved {A B : Type} (m : Async A) (k : A -> Async B)
    (w : World) (a : A) (w1 : World) (sent : list FetchArgs) :
  m w = mkRan (Fulfilled a) w1 sent ->
  bind m k w
  = mkRan (outcome (k a w1)) (world_after (k a w1))
          (sent ++ issued (k a w1))%list.
Proof.
  intros H. unfold bind. rewrite H. reflexivity.
Qed.

Lemma lastPage_appended (l : list (FetchResult IResponse))
    (p : FetchResult IResponse) (c : list number) :
  lastPage {| pages := (l ++ [p])%list; pageParams := c |} = Some p.
Proof.
  unfold lastPage. cbn [pages]. rewrite map_app. cbn [map].
  apply last_last.
Qed.

(** Whether the hook reports a next page is the truthiness of the last
    page's [nextCursor]. *)
Lemma hasNextPage_truthy (d : InfiniteData) (lastpage : FetchResult IResponse) :
  lastPage d = Some lastpage ->
  hasNextPage (useRoomRateAvailabilityCalendar params) d
  = ToBoolean (nextCursor (data lastpage)).
Proof.
  intros Hlast. unfold hasNextPage. rewrite Hlast.
  cbn [UseInfiniteQuery.getNextPageParam useRoomRateAvailabilityCalendar].
  unfold getNextPageParam.
  destruct (nextCursor (data lastpage)) as [| |n]; cbn [ToBoolean];
    try reflexivity.
  destruct (Number_ToBoolean n); reflexivity.
Qed.

(** Without a next page [handleFetchMore] fetches nothing. *)
Lemma fetchMore_stops (options : UseInfiniteQuery.Options)
    (k : nat) (d : InfiniteData) (w : World) :
  hasNextPage options d = false ->
  fetchMore options k d w = mkRan (Fulfilled d) w [].
Proof.
  intros Hno. destruct k; cbn [fetchMore]; [|rewrite Hno]; reflexivity.
Qed.

(** One more page: what [fetchPage] does when [fetchData] resolves. *)
Lemma fetchPage_resolved (d : InfiniteData) (c : number) (w : World)
    (response : FetchResult IResponse) :
  outcome (fetchData params {| pageParam := Some c |} w) = Fulfilled response ->
  fetchPage (useRoomRateAvailabilityCalendar params) d c w
  = mkRan (Fulfilled {| pages := (pages d ++ [response])%list;
                        pageParams := (pageParams d ++ [c])%list |})
          (world_after (fetchData params {| pageParam := Some c |} w))
          (issued (fetchData params {| pageParam := Some c |} w)).
Proof.
  intros H. unfold fetchPage, bind.
  cbn [UseInfiniteQuery.queryFn useRoomRateAvailabilityCalendar].
  rewrite H. cbn [ret outcome world_after issued]. now rewrite app_nil_r.
Qed.

(** C1, as the code has it: [getNextPageParam] returns the last page's
    [nextCursor] when that is a truthy number (any number but [0], [-0]
    and [NaN]) and [undefined] when it is absent, [null] or a falsy
    number; a run has a next page exactly in the first case. *)
Theorem getNextPageParam_truthy_or_undefined
    (d : InfiniteData) (lastpage : FetchResult IResponse) :
  lastPage d = Some lastpage ->
  match nextCursor (data lastpage) with
  | Num n =>
      if Number_ToBoolean n
      then getNextPageParam lastpage = Num n
           /\ hasNextPage (useRoomRateAvailabilityCalendar params) d = true
      else getNextPageParam lastpage = undefined
           /\ hasNextPage (useRoomRateAvailabilityCalendar params) d = false
  | undefined | null =>
      getNextPageParam lastpage = undefined
      /\ hasNextPage (useRoomRateAvailabilityCalendar params) d = false
  end.
Proof.
  intros Hlast. rewrite (hasNextPage_truthy d lastpage Hlast).
  unfold getNextPageParam.
  destruct (nextCursor (data lastpage)) as [| |n]; cbn [ToBoolean];
    try (split; reflexivity).
  destruct (Number_ToBoolean n); split; reflexivity.
Qed.

(** C9: when the last page's [nextCursor] is a falsy number ([0], [-0] or
    [NaN]), [getNextPageParam] returns [undefined], the run has no next
    page and [handleFetchMore] requests nothing more, although the server
    sent a cursor.  The run has a next page only when the last page's
    [nextCursor] is a truthy number. *)
Theorem falsy_cursor_ends_pagination
    (d : InfiniteData) (lastpage : FetchResult IResponse) :
  lastPage d = Some lastpage ->
  (forall n,
     nextCursor (data lastpage) = Num n ->
     Number_ToBoolean n = false ->
     getNextPageParam lastpage = undefined
     /\ hasNextPage (useRoomRateAvailabilityCalendar params) d = false
     /\ forall (k : nat) (w : World),
          fetchMore (useRoomRateAvailabilityCalendar params) k d w
          = mkRan (Fulfilled d) w [])
  /\ (hasNextPage (useRoomRateAvailabilityCalendar params) d = true ->
      exists n,
        nextCursor (data lastpage) = Num n
        /\ Number_ToBoolean n = true
        /\ getNextPageParam lastpage = Num n).
Proof.
  intros Hlast. split.
  - intros n Hn Hfalsy.
    assert (Hno : hasNextPage (useRoomRateAvailabilityCalendar params) d = false).
    { rewrite (hasNextPage_truthy d lastpage Hlast), Hn. exact Hfalsy. }
    split; [|split].
    + unfold getNextPageParam. rewrite Hn. cbn [ToBoolean]. now rewrite Hfalsy.
    + exact Hno.
    + intros k w. now apply fetchMore_stops.
  - rewrite (hasNextPage_truthy d lastpage Hlast). unfold getNextPageParam.
    destruct (nextCursor (data lastpage)) as [| |n]; cbn [ToBoolean];
      try discriminate.
    intros Hn. exists n. rewrite Hn. repeat split.
Qed.

(** C6, as the code has it: the hook does not look into the response.  The
    page the one call of [Fetch] resolves with is the page [fetchData]
    resolves with, and it is appended to the pages of the run, whether or
    not it meets the data-model invariants. *)
Theorem fetched_page_is_not_validated
    (d : InfiniteData) (c : number) (w : World) (req : FetchArgs)
    (response : FetchResult IResponse) :
  issued (fetchData params {| pageParam := Some c |} w) = [req] ->
  fst (Fetch req w) = Fulfilled response ->
  outcome (fetchData params {| pageParam := Some c |} w) = Fulfilled response
  /\ outcome (fetchPage (useRoomRateAvailabilityCalendar params) d c w)
     = Fulfilled {| pages := (pages d ++ [response])%list;
                    pageParams := (pageParams d ++ [c])%list |}.
Proof.
  intros Hreq Hres.
  pose proof (fetchData_resolves_as_Fetch params _ w req response Hreq Hres)
    as Hout.
  split; [exact Hout|]. now rewrite (fetchPage_resolved d c w response Hout).
Qed.

(** What [fetchPage] requests is what [fetchData] requests. *)
Lemma issued_fetchPage (d : InfiniteData) (c : number) (w : World) :
  issued (fetchPage (useRoomRateAvailabilityCalendar params) d c w)
  = issued (fetchData params {| pageParam := Some c |} w).
Proof.
  unfold fetchPage, bind.
  cbn [UseInfiniteQuery.queryFn useRoomRateAvailabilityCalendar].
  destruct (outcome (fetchData params {| pageParam := Some c |} w));
    cbn [issued ret]; [apply app_nil_r | reflexivity].
Qed.

(** C3, as the code has it: every request carries the [cursor] parameter,
    the page parameter printed by [toString].  A call without a page
    parameter and the first call of a run carry [cursor=0]; a later call of
    the run carries the [nextCursor] of the last page. *)
Theorem fetchData_always_sends_cursor
    (ctx : QueryFunctionContext) (d : InfiniteData) (w : World) :
  Forall
    (fun req =>
       cursor_of req
       = Some (toString match pageParam ctx with
                        | Some n => n
                        | None => 0%float
                        end))
    (issued (fetchData params ctx w))
  /\ Forall (fun req => cursor_of req = Some "0")
       (issued (fetchData params {| pageParam := None |} w))
  /\ Forall (fun req => cursor_of req = Some "0")
       (issued (fetchFirstPage (useRoomRateAvailabilityCalendar params) w))
  /\ Forall
       (fun req =>
          exists lastpage n,
            lastPage d = Some lastpage
            /\ nextCursor (data lastpage) = Num n
            /\ cursor_of req = Some (toString n))
       (issued (fetchNextPage (useRoomRateAvailabilityCalendar params) d w)).
Proof.
  split; [apply fetchData_sends_cursor|].
  split; [exact (fetchData_sends_cursor params {| pageParam := None |} w)|].
  split.
  - unfold fetchFirstPage. rewrite issued_fetchPage.
    exact (fetchData_sends_cursor params
             {| pageParam := Some initialPageParam |} w).
  - unfold fetchNextPage.
    destruct (lastPage d) as [lastpage|] eqn:Hlast; [|constructor].
    cbn [UseInfiniteQuery.getNextPageParam useRoomRateAvailabilityCalendar].
    unfold getNextPageParam.
    destruct (nextCursor (data lastpage)) as [| |n] eqn:Hn; cbn [ToBoolean];
      try constructor.
    destruct (Number_ToBoolean n); [|constructor].
    rewrite issued_fetchPage.
    pose proof (fetchData_sends_cursor params {| pageParam := Some n |} w)
      as Hsent.
    cbn [pageParam] in Hsent.
    eapply Forall_impl; [|exact Hsent].
    intros req Hreq. exists lastpage, n. repeat split; assumption.
Qed.

(** The two options that bear on caching: the hook asks the query layer to
    hold fetched data fresh for 120000 milliseconds, under the key
    [["property_room_calendar", params]], in which no cursor occurs. *)
Lemma stale_time_and_query_key :
  UseInfiniteQuery.staleTime (useRoomRateAvailabilityCalendar params)
  = (120 * 1000)%float
  /\ UseInfiniteQuery.staleTime (useRoomRateAvailabilityCalendar params)
     = 120000%float
  /\ UseInfiniteQuery.queryKey (useRoomRateAvailabilityCalendar params)
     = ("property_room_calendar", params).
Proof.
  repeat split; reflexivity.
Qed.

End Pagination.

(* ================================================================= *)
(** ** The hook on the platforms above *)

(** The scenario of the specification: the run asks for the cursors 0, 11
    and 21, collects three valid pages and ends, however often
    [handleFetchMore] is called after that. *)
Example scenario_run :
  let r := InfiniteQuery.run (P := scenario)
             (useRoomRateAvailabilityCalendar march_2025) 5 0 in
  outcome r = Fulfilled {| InfiniteQuery.pages := [page_1; page_2; page_3];
                           InfiniteQuery.pageParams := [0; 11; 21]%float |}
  /\ map cursor_of (issued r) = [Some "0"; Some "11"; Some "21"]
  /\ world_after r = 3%nat
  /\ forallb (fun p => page_valid march_2025 (data p)) [page_1; page_2; page_3]
     = true.
Proof. vm_compute. repeat split. Qed.

Example falsy_numbers :
  map Number_ToBoolean [0; -0; nan; 1; -1; 0.5; infinity]%float
  = [false; false; false; true; true; true; true].
Proof. reflexivity. Qed.

(** C5, as stated, fails in a build without [NEXT_PUBLIC_BACKEND_URL]: the
    page fetch issues no request at all. *)
Lemma unconfigured_fetch_issues_no_request :
  issued (fetchData (P := unconfigured) march_2025
            {| pageParam := Some 0%float |} 0%nat) = []
  /\ List.length (issued (fetchData (P := unconfigured) march_2025
                            {| pageParam := Some 0%float |} 0%nat)) <> 1%nat
  /\ template_string (NEXT_PUBLIC_BACKEND_URL (Platform := unconfigured))
     ++ "/api/v1/property/" ++ toString (P := unconfigured) 42%float
     ++ "/rate-calendar/assessment"
     = "undefined/api/v1/property/42/rate-calendar/assessment".
Proof.
  split; [reflexivity|]. split; [|reflexivity].
  change (issued (fetchData (P := unconfigured) march_2025
                    {| pageParam := Some 0%float |} 0%nat))
    with (@nil FetchArgs).
  discriminate.
Qed.

(** C5, as the code has it, on the second request of the scenario. *)
Lemma fetchData_one_GET_or_TypeError_scenario :
  exists req,
    issued (fetchData (P := scenario) march_2025
              {| pageParam := Some 11%float |} 0%nat) = [req]
    /\ method req = "GET"
    /\ url req
       = {| resource :=
              "https://api.example.com/api/v1/property/42/rate-calendar/assessment";
            search :=
              "start_date=2025-03-01&end_date=2025-03-31&cursor=11&fields=id%2Cname%2Crate" |}
    /\ resource (url req)
       = "https://api.example.com/api/v1/property/42/rate-calendar/assessment"
    /\ urlencoded_parse (search (url req))
       = [ ("start_date", "2025-03-01"); ("end_date", "2025-03-31");
           ("cursor", "11"); ("fields", "id,name,rate") ]
    /\ outcome (fetchData (P := scenario) march_2025
                  {| pageParam := Some 11%float |} 0%nat)
       = fst (scenario_server req 0%nat)
    /\ world_after (fetchData (P := scenario) march_2025
                      {| pageParam := Some 11%float |} 0%nat)
       = snd (scenario_server req 0%nat).
Proof.
  exact (fetchData_one_GET_or_TypeError (P := scenario) march_2025
           {| pageParam := Some 11%float |} 0%nat).
Defined.

(** C10 on the second request of the scenario: the request is sent, and it
    carries the fields. *)
Lemma fetchData_fields_fixed_scenario :
  exists req,
    issued (fetchData (P := scenario) march_2025
              {| pageParam := Some 11%float |} 0%nat) = [req]
    /\ URLSearchParams_get "fields" (urlencoded_parse (search (url req)))
       = Some "id,name,rate".
Proof.
  exact (proj2 (fetchData_fields_fixed (P := scenario) march_2025
                  {| pageParam := Some 11%float |} 0%nat)).
Defined.

(** C1, as stated, fails at [nextCursor = 0]: the cursor is present and
    [getNextPageParam] returns [undefined]; the run ends after one request
    although the server named a next cursor. *)
Lemma zero_cursor_is_dropped :
  nextCursor (data page_zero) = Num 0%float
  /\ getNextPageParam page_zero = undefined
  /\ getNextPageParam page_zero <> nextCursor (data page_zero)
  /\ map cursor_of
       (issued (InfiniteQuery.run (P := zero_cursor)
                  (useRoomRateAvailabilityCalendar march_2025) 3 0%nat))
     = [Some "0"].
Proof.
  repeat split; try reflexivity. discriminate.
Qed.

(** C1, as the code has it, on the first page of the scenario. *)
Lemma getNextPageParam_truthy_or_undefined_scenario :
  getNextPageParam page_1 = Num 11%float
  /\ InfiniteQuery.hasNextPage (P := scenario)
       (useRoomRateAvailabilityCalendar march_2025)
       {| InfiniteQuery.pages := [page_1];
          InfiniteQuery.pageParams := [0%float] |} = true.
Proof.
  exact (getNextPageParam_truthy_or_undefined (P := scenario) march_2025
           {| InfiniteQuery.pages := [page_1];
              InfiniteQuery.pageParams := [0%float] |} page_1 eq_refl).
Defined.

(** C9 at [nextCursor = 0]. *)
Lemma falsy_cursor_ends_pagination_at_0 :
  getNextPageParam page_zero = undefined
  /\ InfiniteQuery.hasNextPage (P := zero_cursor)
       (useRoomRateAvailabilityCalendar march_2025)
       {| InfiniteQuery.pages := [page_zero];
          InfiniteQuery.pageParams := [0%float] |} = false
  /\ forall (k : nat) (w : nat),
       InfiniteQuery.fetchMore (P := zero_cursor)
         (useRoomRateAvailabilityCalendar march_2025) k
         {| InfiniteQuery.pages := [page_zero];
            InfiniteQuery.pageParams := [0%float] |} w
       = mkRan (P := zero_cursor)
           (Fulfilled {| InfiniteQuery.pages := [page_zero];
                         InfiniteQuery.pageParams := [0%float] |}) w [].
Proof.
  exact (proj1 (falsy_cursor_ends_pagination (P := zero_cursor) march_2025
                  {| InfiniteQuery.pages := [page_zero];
                     InfiniteQuery.pageParams := [0%float] |} page_zero
                  eq_refl)
           0%float eq_refl eq_refl).
Defined.


(** C3, as stated, fails on the first request of any run: it carries
    [cursor=0]. *)
Lemma first_request_sends_cursor_0 :
  let r := InfiniteQuery.fetchFirstPage (P := scenario)
             (useRoomRateAvailabilityCalendar march_2025) 0%nat in
  map cursor_of (issued r) = [Some "0"]
  /\ map (fun req => search (url req)) (issued r)
     = ["start_date=2025-03-01&end_date=2025-03-31&cursor=0&fields=id%2Cname%2Crate"]
  /\ ~ In None (map cursor_of (issued r)).
Proof.
  cbv zeta.
  assert (E : map cursor_of
                (issued (InfiniteQuery.fetchFirstPage (P := scenario)
                           (useRoomRateAvailabilityCalendar march_2025) 0%nat))
              = [Some "0"]) by reflexivity.
  split; [exact E|]. split; [reflexivity|].
  rewrite E. intros [H|[]]. discriminate H.
Qed.

(** The three requests of the scenario carry three cursors, and the hook
    has one query key for all of them. *)
Example pages_of_a_run_share_one_key :
  let options := useRoomRateAvailabilityCalendar (P := scenario) march_2025 in
  map cursor_of (issued (InfiniteQuery.run options 2 0%nat))
  = [Some "0"; Some "11"; Some "21"]
  /\ UseInfiniteQuery.queryKey options
     = ("property_room_calendar",
        {| property_id := 42%float;
           start_date := "2025-03-01";
           end_date := "2025-03-31" |}).
Proof.
  cbv zeta. split; reflexivity.
Qed.

(** C6, as stated, fails on a page with a repeated category id and a date
    after [end_date]: the fetch resolves with it and the run holds it. *)
Lemma invalid_page_is_merged :
  page_valid march_2025 (data page_invalid) = false
  /\ outcome (fetchData (P := careless) march_2025
                {| pageParam := Some 0%float |} 0%nat)
     = Fulfilled page_invalid
  /\ outcome (InfiniteQuery.run (P := careless)
                (useRoomRateAvailabilityCalendar march_2025) 1 0%nat)
     = Fulfilled {| InfiniteQuery.pages := [page_invalid];
                    InfiniteQuery.pageParams := [0%float] |}.
Proof.
  repeat split; reflexivity.
Qed.

(** C6, as the code has it, on the same page. *)
Lemma fetched_page_is_not_validated_careless :
  page_valid march_2025 (data page_invalid) = false
  /\ outcome (fetchData (P := careless) march_2025
                {| pageParam := Some 0%float |} 0%nat)
     = Fulfilled page_invalid
  /\ outcome (InfiniteQuery.fetchPage (P := careless)
                (useRoomRateAvailabilityCalendar march_2025)
                {| InfiniteQuery.pages := []; InfiniteQuery.pageParams := [] |}
                0%float 0%nat)
     = Fulfilled {| InfiniteQuery.pages := [page_invalid];
                    InfiniteQuery.pageParams := [0%float] |}.
Proof.
  split; [reflexivity|].
  apply (fetched_page_is_not_validated (P := careless) march_2025
           {| InfiniteQuery.pages := []; InfiniteQuery.pageParams := [] |}
           0%float 0%nat
           {| method := "GET";
              url := {| resource :=
                          "https://api.example.com/api/v1/property/42/rate-calendar/assessment";
                        search :=
                          "start_date=2025-03-01&end_date=2025-03-31&cursor=0&fields=id%2Cname%2Crate" |} |}
           page_invalid);
    reflexivity.
Defined.



(* ================================================================= *)
(** * Further properties of the hook *)

(** ** The query string *)

Section QueryString.
Context {P : Platform}.

Lemma string_forallb_app (f : ascii -> bool) (a b : string) :
  string_forallb f (a ++ b) = string_forallb f a && string_forallb f b.
Proof.
  induction a as [|x r IH]; cbn [string_forallb append]; [reflexivity|].
  now rewrite IH, andb_assoc.
Qed.

Lemma escape_digits_query_chars (c : ascii) :
  query_char (hex_digit (nat_of_ascii c / 16)) = true
  /\ query_char (hex_digit (nat_of_ascii c mod 16)) = true.
Proof.
  destruct c as [[] [] [] [] [] [] [] []]; vm_compute; split; reflexivity.
Qed.

Lemma serialize_bytes_query_chars (s : string) :
  string_forallb query_char (urlencoded_serialize_bytes s) = true.
Proof.
  induction s as [|c r IH]; [reflexivity|].
  cbn [urlencoded_serialize_bytes].
  destruct (Ascii.eqb c " ") eqn:Hsp.
  - cbn [string_forallb]. now rewrite IH.
  - destruct (urlencoded_keeps c) eqn:Hk.
    + cbn [string_forallb]. unfold query_char at 1. rewrite Hk, IH. reflexivity.
    + destruct (escape_digits_query_chars c) as [Hh Hl].
      cbv zeta. cbn [string_forallb]. rewrite Hh, Hl, IH. reflexivity.
Qed.

Lemma toString_query_chars (l : URLSearchParams) :
  string_forallb query_char (URLSearchParams_toString l) = true.
Proof.
  unfold URLSearchParams_toString.
  induction l as [|[k v] r IH]; [reflexivity|].
  assert (Hpair : string_forallb query_char
            (urlencoded_serialize_bytes k ++ "="
             ++ urlencoded_serialize_bytes v) = true).
  { rewrite string_forallb_app. cbn [append string_forallb].
    now rewrite !serialize_bytes_query_chars. }
  destruct r as [|q r'].
  - cbn [map concat fst snd]. exact Hpair.
  - change (concat "&" (map ?f ((k, v) :: q :: r')))
      with (f (k, v) ++ String "&" (concat "&" (map f (q :: r')))).
    cbn [fst snd]. rewrite string_forallb_app, Hpair.
    cbn [string_forallb]. rewrite IH. reflexivity.
Qed.

Lemma query_chars_free_of (c : ascii) (s : string) :
  query_char c = false ->
  string_forallb query_char s = true ->
  free_of c s = true.
Proof.
  intros Hc. induction s as [|a r IH]; cbn [string_forallb free_of];
    [reflexivity|].
  intros H. apply andb_true_iff in H as [Ha Hr]. rewrite (IH Hr), andb_true_r.
  apply negb_true_iff. destruct (Ascii.eqb a c) eqn:E; [|reflexivity].
  apply Ascii.eqb_eq in E. subst a. congruence.
Qed.

(** X1: the query string of every request is made of letters, digits and
    [*-._+%=&] only, whatever characters the dates hold; it has no [?], no
    [#] and no space, so the [search] setter has nothing to strip or
    encode. *)
Theorem query_string_is_plain
    (params : IParams) (ctx : QueryFunctionContext) (w : World) :
  Forall
    (fun req =>
       string_forallb query_char (search (url req)) = true
       /\ free_of "?" (search (url req)) = true
       /\ free_of "#" (search (url req)) = true
       /\ free_of " " (search (url req)) = true)
    (issued (fetchData params ctx w)).
Proof.
  destruct (URL_parse (template_string NEXT_PUBLIC_BACKEND_URL
             ++ "/api/v1/property/" ++ toString (property_id params)
             ++ "/rate-calendar/assessment")) as [u|] eqn:Hu.
  - pose proof (fetchData_valid_URL params ctx w u Hu) as Hrun.
    cbv zeta in Hrun. rewrite Hrun. cbn [issued].
    constructor; [|constructor]. cbn [url search URL_set_search].
    pose proof (toString_query_chars
      [ ("start_date", start_date params);
        ("end_date", end_date params);
        ("cursor", toString match pageParam ctx with
                            | Some n => n
                            | None => 0%float
                            end);
        ("fields", "id,name,rate") ]) as Hq.
    repeat split; try exact Hq;
      apply query_chars_free_of; try exact Hq; reflexivity.
  - rewrite (fetchData_invalid_URL params ctx w Hu). constructor.
Qed.

(** X2: the query string tells date ranges and cursors apart, for dates
    that are well-formed strings (a byte string stands for the UTF-8
    encoding of one): two requests built from different [start_date]s, from
    different [end_date]s or from differently printed cursors have different
    query strings. *)
Theorem query_string_tells_apart
    (params1 params2 : IParams) (ctx1 ctx2 : QueryFunctionContext)
    (w1 w2 : World) (req1 req2 : FetchArgs) :
  In req1 (issued (fetchData params1 ctx1 w1)) ->
  In req2 (issued (fetchData params2 ctx2 w2)) ->
  start_date params1 <> start_date params2
  \/ end_date params1 <> end_date params2
  \/ toString match pageParam ctx1 with Some n => n | None => 0%float end
     <> toString match pageParam ctx2 with Some n => n | None => 0%float end ->
  search (url req1) <> search (url req2).
Proof.
  intros H1 H2 Hdiff Hsame.
  destruct (fetchData_cases params1 ctx1 w1) as [Hr1 | (r1 & _ & Hq1 & Hr1)];
    rewrite Hr1 in H1; cbn [issued] in H1; [destruct H1|].
  destruct (fetchData_cases params2 ctx2 w2) as [Hr2 | (r2 & _ & Hq2 & Hr2)];
    rewrite Hr2 in H2; cbn [issued] in H2; [destruct H2|].
  destruct H1 as [<-|[]]. destruct H2 as [<-|[]].
  rewrite Hsame, Hq2 in Hq1. injection Hq1 as Hs He Hc.
  destruct Hdiff as [Hd | [Hd | Hd]]; apply Hd; congruence.
Qed.

(** X9: between the requests [fetchData] issues for the same parameters,
    only the cursor can differ: they are GETs to the same URL, and their
    queries decode to the same [start_date], the same [end_date] and
    [fields = id,name,rate], whatever the page parameters and the states of
    the world are. *)
Theorem requests_differ_only_in_cursor
    (params : IParams) (ctx1 ctx2 : QueryFunctionContext)
    (w1 w2 : World) (req1 req2 : FetchArgs) :
  In req1 (issued (fetchData params ctx1 w1)) ->
  In req2 (issued (fetchData params ctx2 w2)) ->
  method req1 = "GET"
  /\ method req2 = "GET"
  /\ resource (url req1) = resource (url req2)
  /\ exists sd ed c1 c2,
       urlencoded_parse (search (url req1))
       = [ ("start_date", sd); ("end_date", ed); ("cursor", c1);
           ("fields", "id,name,rate") ]
       /\ urlencoded_parse (search (url req2))
          = [ ("start_date", sd); ("end_date", ed); ("cursor", c2);
              ("fields", "id,name,rate") ].
Proof.
  intros H1 H2.
  destruct (URL_parse (template_string NEXT_PUBLIC_BACKEND_URL
             ++ "/api/v1/property/" ++ toString (property_id params)
             ++ "/rate-calendar/assessment")) as [u|] eqn:Hu.
  - pose proof (fetchData_valid_URL params ctx1 w1 u Hu) as Hr1.
    pose proof (fetchData_valid_URL params ctx2 w2 u Hu) as Hr2.
    cbv zeta in Hr1, Hr2. rewrite Hr1 in H1. rewrite Hr2 in H2.
    cbn [issued] in H1, H2.
    destruct H1 as [<-|[]]. destruct H2 as [<-|[]].
    cbn [method url resource search URL_set_search].
    repeat split.
    exists (start_date params), (end_date params). eexists. eexists.
    split; apply urlencoded_parse_toString.
  - rewrite (fetchData_invalid_URL params ctx1 w1 Hu) in H1. destruct H1.
Qed.

End QueryString.

(* ================================================================= *)
(** ** Runs of pages *)

Section Runs.
Import InfiniteQuery.
Context {P : Platform}.

Lemma Ran_eta {A : Type} (r : Ran A) :
  r = mkRan (outcome r) (world_after r) (issued r).
Proof. destruct r; reflexivity. Qed.

Lemma ret_bind_at {A B : Type} (a : A) (k : A -> Async B) (w : World) :
  bind (ret a) k w = k a w.
Proof.
  unfold bind, ret. cbn [outcome world_after issued app].
  symmetry. apply Ran_eta.
Qed.

Lemma bind_rejected {A B : Type} (m : Async A) (k : A -> Async B)
    (w : World) (e : JsError) :
  outcome (m w) = Rejected e ->
  bind m k w = mkRan (Rejected e) (world_after (m w)) (issued (m w)).
Proof.
  intros H. unfold bind. now rewrite H.
Qed.

Lemma bind_ext_at {A B : Type} (m : Async A) (f g : A -> Async B) (w : World) :
  (forall a w', f a w' = g a w') -> bind m f w = bind m g w.
Proof.
  intros H. unfold bind. destruct (outcome (m w)); [rewrite H|]; reflexivity.
Qed.

Lemma bind_assoc_at {A B C : Type}
    (m : Async A) (f : A -> Async B) (g : B -> Async C) (w : World) :
  bind (bind m f) g w = bind m (fun a => bind (f a) g) w.
Proof.
  unfold bind. destruct (outcome (m w)) as [a|e]; cbn [outcome world_after issued];
    [|reflexivity].
  destruct (outcome (f a (world_after (m w)))); cbn [outcome world_after issued];
    [now rewrite app_assoc | reflexivity].
Qed.

(** Calling [handleFetchMore] [a + b] times is calling it [a] times and
    then [b] times. *)
Lemma fetchMore_plus (options : UseInfiniteQuery.Options)
    (a b : nat) (d : InfiniteData) (w : World) :
  fetchMore options (a + b) d w
  = bind (fetchMore options a d) (fetchMore options b) w.
Proof.
  revert d w. induction a as [|a IH]; intros d w.
  - cbn [Nat.add fetchMore]. now rewrite ret_bind_at.
  - cbn [Nat.add fetchMore]. destruct (hasNextPage options d) eqn:Hnext.
    + rewrite bind_assoc_at. apply bind_ext_at. exact IH.
    + rewrite ret_bind_at. symmetry. now apply fetchMore_stops.
Qed.

Variable params : IParams.

Lemma fetchPage_rejected (d : InfiniteData) (c : number) (w : World)
    (e : JsError) :
  outcome (fetchData params {| pageParam := Some c |} w) = Rejected e ->
  fetchPage (useRoomRateAvailabilityCalendar params) d c w
  = mkRan (Rejected e)
          (world_after (fetchData params {| pageParam := Some c |} w))
          (issued (fetchData params {| pageParam := Some c |} w)).
Proof.
  intros H. unfold fetchPage.
  cbn [UseInfiniteQuery.queryFn useRoomRateAvailabilityCalendar].
  now apply bind_rejected.
Qed.

(** With a next page, [fetchNextPage] asks for the last page's
    [nextCursor], a truthy number. *)
Lemma hasNextPage_next (d : InfiniteData) :
  hasNextPage (useRoomRateAvailabilityCalendar params) d = true ->
  exists lastpage n,
    lastPage d = Some lastpage
    /\ nextCursor (data lastpage) = Num n
    /\ Number_ToBoolean n = true
    /\ forall w,
         fetchNextPage (useRoomRateAvailabilityCalendar params) d w
         = fetchPage (useRoomRateAvailabilityCalendar params) d n w.
Proof.
  unfold hasNextPage, fetchNextPage.
  destruct (lastPage d) as [lastpage|]; [|discriminate].
  cbn [UseInfiniteQuery.getNextPageParam useRoomRateAvailabilityCalendar].
  unfold getNextPageParam.
  destruct (nextCursor (data lastpage)) as [| |n] eqn:Hc;
    cbn [ToBoolean is_nullish negb]; try discriminate.
  destruct (Number_ToBoolean n) eqn:Hn; cbn [is_nullish negb]; [|discriminate].
  intros _. exists lastpage, n. repeat split; assumption.
Qed.

Lemma lastPage_pages (d : InfiniteData) (p : FetchResult IResponse) :
  lastPage d = Some p -> pages d = (removelast (pages d) ++ [p])%list.
Proof.
  unfold lastPage. induction (pages d) as [|x l IH]; [discriminate|].
  destruct l as [|y l'].
  - cbn. now intros [= ->].
  - intros H. change (removelast (x :: y :: l')) with (x :: removelast (y :: l')).
    cbn [app]. f_equal. apply IH. exact H.
Qed.

(** One page more keeps the chain of cursors. *)
Lemma cursor_chain_step (d : InfiniteData) (lastpage p : FetchResult IResponse)
    (n : number) :
  cursor_chain d ->
  lastPage d = Some lastpage ->
  nextCursor (data lastpage) = Num n ->
  Number_ToBoolean n = true ->
  cursor_chain {| pages := (pages d ++ [p])%list;
                  pageParams := (pageParams d ++ [n])%list |}.
Proof.
  intros (Hne & Hchain & Htruthy) Hlast Hn Hbool.
  unfold cursor_chain. cbn [pages pageParams]. split; [|split].
  - intros H. now apply app_eq_nil in H as [_ H].
  - rewrite removelast_last, map_app, Hchain. cbn [map app]. f_equal.
    rewrite (lastPage_pages d lastpage Hlast) at 2.
    rewrite map_app. cbn [map]. now rewrite Hn.
  - destruct (pageParams d) as [|c0 rest]; [discriminate Hchain|].
    cbn [tl app] in *. apply Forall_app. split; [exact Htruthy|].
    constructor; [exact Hbool | constructor].
Qed.

(** What [handleFetchMore] adds to a run, when no fetch fails. *)
Lemma fetchMore_extends (k : nat) :
  forall (d : InfiniteData) (w : World) (d' : InfiniteData),
    outcome (fetchMore (useRoomRateAvailabilityCalendar params) k d w)
    = Fulfilled d' ->
    exists newpages newparams,
      pages d' = (pages d ++ newpages)%list
      /\ pageParams d' = (pageParams d ++ newparams)%list
      /\ List.length newpages = List.length newparams
      /\ (List.length newparams <= k)%nat
      /\ map cursor_of
           (issued (fetchMore (useRoomRateAvailabilityCalendar params) k d w))
         = map (fun n => Some (toString n)) newparams
      /\ (cursor_chain d -> cursor_chain d').
Proof.
  induction k as [|k IH]; intros d w d'.
  - cbn [fetchMore ret outcome issued]. intros [= <-].
    exists [], []. rewrite !app_nil_r. cbn [List.length map].
    repeat split; auto; apply H.
  - cbn [fetchMore].
    destruct (hasNextPage (useRoomRateAvailabilityCalendar params) d) eqn:Hnext.
    + destruct (hasNextPage_next d Hnext)
        as (lastpage & n & Hlast & Hn & Hbool & Hfetch).
      destruct (outcome (fetchData params {| pageParam := Some n |} w))
        as [p|e] eqn:Hout.
      * set (d1 := {| pages := (pages d ++ [p])%list;
                      pageParams := (pageParams d ++ [n])%list |}).
        set (w1 := world_after (fetchData params {| pageParam := Some n |} w)).
        assert (Hstep :
          fetchNextPage (useRoomRateAvailabilityCalendar params) d w
          = mkRan (Fulfilled d1) w1
              (issued (fetchData params {| pageParam := Some n |} w))).
        { rewrite Hfetch. now apply fetchPage_resolved. }
        rewrite (bind_resolved _ _ w d1 w1 _ Hstep).
        cbn [outcome world_after issued]. intros Hd'.
        destruct (IH d1 w1 d' Hd')
          as (newpages & newparams & Hp & Hq & Hlen & Hle & Hcur & Hch).
        exists (p :: newpages), (n :: newparams).
        subst d1. cbn [pages pageParams] in Hp, Hq.
        rewrite <- app_assoc in Hp, Hq. cbn [app] in Hp, Hq.
        destruct (fetchData_resolved_one_request params _ w p Hout)
          as [req Hreq].
        pose proof (fetchData_sends_cursor params
                      {| pageParam := Some n |} w) as Hsent.
        cbn [pageParam] in Hsent. rewrite Hreq in Hsent |- *.
        inversion Hsent as [|? ? Hc _]; subst.
        split; [exact Hp|]. split; [exact Hq|].
        split; [cbn [List.length]; now rewrite Hlen|].
        split; [cbn [List.length]; lia|].
        split; [cbn [app map]; now rewrite Hc, Hcur|].
        intros Hd. apply Hch.
        now apply (cursor_chain_step d lastpage p n).
      * assert (Hstep :
          outcome (fetchNextPage (useRoomRateAvailabilityCalendar params) d w)
          = Rejected e).
        { rewrite Hfetch, (fetchPage_rejected d n w e Hout). reflexivity. }
        rewrite (bind_rejected _ _ w e Hstep). cbn [outcome]. discriminate.
    + cbn [ret outcome issued]. intros [= <-].
      exists [], []. rewrite !app_nil_r. cbn [List.length map].
      repeat split; auto; try lia; apply H.
Qed.

(** A run whose first page arrived goes on from that page. *)
Lemma run_first_resolved (n : nat) (w : World) (p : FetchResult IResponse) :
  outcome (fetchData params {| pageParam := Some initialPageParam |} w)
  = Fulfilled p ->
  run (useRoomRateAvailabilityCalendar params) n w
  = mkRan
      (outcome (fetchMore (useRoomRateAvailabilityCalendar params) n
                  {| pages := [p]; pageParams := [initialPageParam] |}
                  (world_after (fetchData params
                                  {| pageParam := Some initialPageParam |} w))))
      (world_after (fetchMore (useRoomRateAvailabilityCalendar params) n
                  {| pages := [p]; pageParams := [initialPageParam] |}
                  (world_after (fetchData params
                                  {| pageParam := Some initialPageParam |} w))))
      (issued (fetchData params {| pageParam := Some initialPageParam |} w)
       ++ issued (fetchMore (useRoomRateAvailabilityCalendar params) n
                  {| pages := [p]; pageParams := [initialPageParam] |}
                  (world_after (fetchData params
                                  {| pageParam := Some initialPageParam |} w))))%list.
Proof.
  intros Hout. unfold run. apply bind_resolved.
  unfold fetchFirstPage.
  cbn [UseInfiniteQuery.initialPageParam useRoomRateAvailabilityCalendar].
  exact (fetchPage_resolved params {| pages := []; pageParams := [] |}
           initialPageParam w p Hout).
Qed.

Lemma run_first_rejected (n : nat) (w : World) (e : JsError) :
  outcome (fetchData params {| pageParam := Some initialPageParam |} w)
  = Rejected e ->
  run (useRoomRateAvailabilityCalendar params) n w
  = mkRan (Rejected e)
      (world_after (fetchData params {| pageParam := Some initialPageParam |} w))
      (issued (fetchData params {| pageParam := Some initialPageParam |} w)).
Proof.
  intros Hout. unfold run.
  assert (Hfirst :
    fetchFirstPage (useRoomRateAvailabilityCalendar params) w
    = mkRan (Rejected e)
        (world_after (fetchData params {| pageParam := Some initialPageParam |} w))
        (issued (fetchData params {| pageParam := Some initialPageParam |} w))).
  { unfold fetchFirstPage.
    cbn [UseInfiniteQuery.initialPageParam useRoomRateAvailabilityCalendar].
    now apply fetchPage_rejected. }
  rewrite (bind_rejected _ _ w e); rewrite Hfirst; reflexivity.
Qed.

(** X3: in a run that resolved, the cursors hang together: the first page
    parameter is 0, and every later page parameter is the [nextCursor] of the
    page fetched just before it, a truthy number.  No page parameter comes
    from anywhere else. *)
Theorem run_cursor_chain (n : nat) (w : World) (d : InfiniteData) :
  outcome (run (useRoomRateAvailabilityCalendar params) n w) = Fulfilled d ->
  cursor_chain d.
Proof.
  destruct (outcome (fetchData params {| pageParam := Some initialPageParam |} w))
    as [p|e] eqn:Hout.
  - rewrite (run_first_resolved n w p Hout). cbn [outcome]. intros Hd.
    destruct (fetchMore_extends n _ _ d Hd) as (_ & _ & _ & _ & _ & _ & _ & Hch).
    apply Hch. unfold cursor_chain. cbn [pages pageParams removelast map tl].
    repeat split; [discriminate | constructor].
  - rewrite (run_first_rejected n w e Hout). cbn [outcome]. discriminate.
Qed.

Lemma run_add (n m : nat) (w : World) :
  run (useRoomRateAvailabilityCalendar params) (n + m) w
  = bind (run (useRoomRateAvailabilityCalendar params) n)
         (fetchMore (useRoomRateAvailabilityCalendar params) m) w.
Proof.
  unfold run. rewrite bind_assoc_at. apply bind_ext_at.
  intros d w'. apply fetchMore_plus.
Qed.

(** X5: once a run has ended, on a page without a truthy [nextCursor],
    further calls of [handleFetchMore] change nothing: the same pages, no
    further request, the same state of the world. *)
Theorem run_saturates (n m : nat) (w : World) (d : InfiniteData) :
  outcome (run (useRoomRateAvailabilityCalendar params) n w) = Fulfilled d ->
  hasNextPage (useRoomRateAvailabilityCalendar params) d = false ->
  run (useRoomRateAvailabilityCalendar params) (n + m) w
  = run (useRoomRateAvailabilityCalendar params) n w.
Proof.
  intros Hd Hend. rewrite run_add. unfold bind. rewrite Hd.
  rewrite (fetchMore_stops _ m d _ Hend). cbn [outcome world_after issued].
  rewrite app_nil_r, <- Hd. symmetry. apply Ran_eta.
Qed.

(** X6: a longer run extends a shorter one: when both resolve, the pages
    of the run with [n] calls are the first pages of the run with [n + m]
    calls, and so are its page parameters; the longer run adds at most [m]
    pages.  No page is dropped, replaced or reordered by going on. *)
Theorem run_extends (n m : nat) (w : World) (d d' : InfiniteData) :
  outcome (run (useRoomRateAvailabilityCalendar params) n w) = Fulfilled d ->
  outcome (run (useRoomRateAvailabilityCalendar params) (n + m) w)
  = Fulfilled d' ->
  exists morepages moreparams,
    pages d' = (pages d ++ morepages)%list
    /\ pageParams d' = (pageParams d ++ moreparams)%list
    /\ List.length morepages = List.length moreparams
    /\ (List.length morepages <= m)%nat.
Proof.
  intros Hd. rewrite run_add. unfold bind. rewrite Hd.
  cbn [outcome issued]. intros Hd'.
  destruct (fetchMore_extends m _ _ d' Hd')
    as (newpages & newparams & Hp & Hq & Hlen & Hle & _ & _).
  exists newpages, newparams. repeat split; try assumption. lia.
Qed.

(** When [new URL] accepts the URL string, [fetchData] resolves with the
    page the server answers its cursor with. *)
Lemma fetchData_answered (c : number) (p : FetchResult IResponse)
    (u : URL) (w : World) :
  URL_parse (template_string NEXT_PUBLIC_BACKEND_URL
             ++ "/api/v1/property/" ++ toString (property_id params)
             ++ "/rate-calendar/assessment") = Some u ->
  answers c p ->
  outcome (fetchData params {| pageParam := Some c |} w) = Fulfilled p.
Proof.
  intros Hu Ha.
  pose proof (fetchData_valid_URL params {| pageParam := Some c |} w u Hu)
    as Hrun. cbv zeta in Hrun. rewrite Hrun. cbn [outcome]. apply Ha.
  unfold cursor_of. cbn [url search URL_set_search pageParam].
  rewrite urlencoded_parse_toString. reflexivity.
Qed.

(** Without a next page [fetchNextPage] fetches nothing. *)
Lemma fetchNextPage_none (options : UseInfiniteQuery.Options)
    (d : InfiniteData) (w : World) :
  hasNextPage options d = false ->
  fetchNextPage options d w = ret d w.
Proof.
  unfold hasNextPage, fetchNextPage.
  destruct (lastPage d) as [p|]; [|reflexivity].
  destruct (UseInfiniteQuery.getNextPageParam options p);
    cbn [is_nullish negb]; try reflexivity. discriminate.
Qed.

(** Awaiting [fetchNextPage] [n] times is calling [handleFetchMore]'s body
    [n] times: the guard on [hasNextPage] changes nothing. *)
Lemma fetchNextPages_fetchMore (options : UseInfiniteQuery.Options) (n : nat) :
  forall (d : InfiniteData) (w : World),
    fetchNextPages options n d w = fetchMore options n d w.
Proof.
  induction n as [|n IH]; intros d w; [reflexivity|].
  cbn [fetchNextPages fetchMore].
  destruct (hasNextPage options d) eqn:Hnext.
  - apply bind_ext_at. exact IH.
  - unfold bind. rewrite (fetchNextPage_none options d w Hnext).
    cbn [ret outcome world_after issued app].
    rewrite IH, (fetchMore_stops options n d w Hnext). reflexivity.
Qed.

(** What is collected from a server that holds the pages [ps] behind the
    cursor the last page names. *)
Lemma fetchMore_collects (u : URL) (ps : list (FetchResult IResponse)) :
  URL_parse (template_string NEXT_PUBLIC_BACKEND_URL
             ++ "/api/v1/property/" ++ toString (property_id params)
             ++ "/rate-calendar/assessment") = Some u ->
  forall (c : number) (k : nat) (d : InfiniteData) (w : World)
         (lastpage : FetchResult IResponse),
    serves c ps ->
    lastPage d = Some lastpage ->
    nextCursor (data lastpage) = Num c ->
    Number_ToBoolean c = true ->
    (List.length ps <= k)%nat ->
    exists d',
      outcome (fetchMore (useRoomRateAvailabilityCalendar params) k d w)
      = Fulfilled d'
      /\ pages d' = (pages d ++ ps)%list
      /\ hasNextPage (useRoomRateAvailabilityCalendar params) d' = false.
Proof.
  intros Hu.
  induction ps as [|p rest IH]; intros c k d w lastpage Hserves Hlast Hc Hbool Hk;
    [destruct Hserves|].
  destruct Hserves as [Hp Hrest].
  destruct k as [|k]; [cbn [List.length] in Hk; lia|].
  cbn [List.length] in Hk. cbn [fetchMore].
  assert (Hnext : hasNextPage (useRoomRateAvailabilityCalendar params) d = true).
  { rewrite (hasNextPage_truthy params d lastpage Hlast), Hc. exact Hbool. }
  rewrite Hnext.
  destruct (hasNextPage_next d Hnext) as (lp & n & Hlast' & Hn & _ & Hfetch).
  rewrite Hlast in Hlast'. injection Hlast' as <-.
  rewrite Hc in Hn. injection Hn as <-.
  set (d1 := {| pages := (pages d ++ [p])%list;
                pageParams := (pageParams d ++ [c])%list |}).
  set (w1 := world_after (fetchData params {| pageParam := Some c |} w)).
  assert (Hstep :
    fetchNextPage (useRoomRateAvailabilityCalendar params) d w
    = mkRan (Fulfilled d1) w1
        (issued (fetchData params {| pageParam := Some c |} w))).
  { rewrite Hfetch. apply fetchPage_resolved.
    exact (fetchData_answered c p u w Hu Hp). }
  rewrite (bind_resolved _ _ w d1 w1 _ Hstep). cbn [outcome].
  assert (Hlast1 : lastPage d1 = Some p) by apply lastPage_appended.
  destruct rest as [|q rest'].
  - assert (Hend : hasNextPage (useRoomRateAvailabilityCalendar params) d1
                   = false).
    { rewrite (hasNextPage_truthy params d1 p Hlast1). exact Hrest. }
    exists d1. rewrite (fetchMore_stops _ k d1 w1 Hend). cbn [outcome].
    repeat split. exact Hend.
  - destruct Hrest as (c' & Hc' & Hbool' & Hserves').
    destruct (IH c' k d1 w1 p Hserves' Hlast1 Hc' Hbool' ltac:(lia))
      as (d' & Hout & Hpages & Hend).
    exists d'. rewrite Hout. split; [reflexivity|]. split; [|exact Hend].
    rewrite Hpages. subst d1. cbn [pages]. now rewrite <- app_assoc.
Qed.

(** X8: pagination is complete.  Let [new URL] accept the URL string, and
    let the server hold the pages [ps] behind the cursor 0: [Fetch] resolves
    a request carrying a cursor with the page held behind it, each page
    names the cursor of the next and the last one names none.  Then fetching
    the first page and awaiting [fetchNextPage] at least as many times as
    there are further pages resolves with exactly these pages, in order, and
    has no next page. *)
Theorem fetchNextPages_collects_all_pages
    (u : URL) (ps : list (FetchResult IResponse)) (n : nat) (w : World) :
  URL_parse (template_string NEXT_PUBLIC_BACKEND_URL
             ++ "/api/v1/property/" ++ toString (property_id params)
             ++ "/rate-calendar/assessment") = Some u ->
  serves initialPageParam ps ->
  (List.length ps <= S n)%nat ->
  exists d,
    outcome
      ((d0 <- fetchFirstPage (useRoomRateAvailabilityCalendar params) ;;
        fetchNextPages (useRoomRateAvailabilityCalendar params) n d0) w)
    = Fulfilled d
    /\ pages d = ps
    /\ hasNextPage (useRoomRateAvailabilityCalendar params) d = false.
Proof.
  intros Hu Hserves Hlen.
  rewrite (bind_ext_at _ _
             (fetchMore (useRoomRateAvailabilityCalendar params) n) w
             (fetchNextPages_fetchMore _ n)).
  change (bind (fetchFirstPage (useRoomRateAvailabilityCalendar params))
            (fetchMore (useRoomRateAvailabilityCalendar params) n) w)
    with (run (useRoomRateAvailabilityCalendar params) n w).
  destruct ps as [|p rest]; [destruct Hserves|].
  destruct Hserves as [Hp Hrest]. cbn [List.length] in Hlen.
  rewrite (run_first_resolved n w p
             (fetchData_answered initialPageParam p u w Hu Hp)).
  cbn [outcome].
  set (d0 := {| pages := [p]; pageParams := [initialPageParam] |}).
  set (w0 := world_after (fetchData params
                            {| pageParam := Some initialPageParam |} w)).
  assert (Hlast0 : lastPage d0 = Some p) by reflexivity.
  destruct rest as [|q rest'].
  - assert (Hend : hasNextPage (useRoomRateAvailabilityCalendar params) d0
                   = false).
    { rewrite (hasNextPage_truthy params d0 p Hlast0). exact Hrest. }
    exists d0. rewrite (fetchMore_stops _ n d0 w0 Hend). cbn [outcome].
    repeat split. exact Hend.
  - destruct Hrest as (c' & Hc' & Hbool' & Hserves').
    destruct (fetchMore_collects u (q :: rest') Hu c' n d0 w0 p Hserves' Hlast0
                Hc' Hbool' ltac:(cbn [List.length] in *; lia))
      as (d & Hout & Hpages & Hend).
    exists d. split; [exact Hout|]. split; [exact Hpages | exact Hend].
Qed.



End Runs.

(* ================================================================= *)
(** ** The further properties on the platforms above *)

(** X2 on the first requests for March and for April. *)
Lemma query_string_tells_apart_scenario :
  "start_date=2025-03-01&end_date=2025-03-31&cursor=0&fields=id%2Cname%2Crate"
  <> "start_date=2025-04-01&end_date=2025-04-30&cursor=0&fields=id%2Cname%2Crate".
Proof.
  apply (query_string_tells_apart (P := scenario) march_2025 april_2025
           {| pageParam := Some 0%float |} {| pageParam := Some 0%float |}
           0%nat 0%nat
           {| method := "GET";
              url := {| resource :=
                          "https://api.example.com/api/v1/property/42/rate-calendar/assessment";
                        search :=
                          "start_date=2025-03-01&end_date=2025-03-31&cursor=0&fields=id%2Cname%2Crate" |} |}
           {| method := "GET";
              url := {| resource :=
                          "https://api.example.com/api/v1/property/42/rate-calendar/assessment";
                        search :=
                          "start_date=2025-04-01&end_date=2025-04-30&cursor=0&fields=id%2Cname%2Crate" |} |});
    [left; reflexivity | left; reflexivity | left; discriminate].
Defined.

(** X3 on the run of the scenario. *)
Lemma run_cursor_chain_scenario :
  cursor_chain {| InfiniteQuery.pages := [page_1; page_2; page_3];
                  InfiniteQuery.pageParams := [0; 11; 21]%float |}.
Proof.
  apply (run_cursor_chain (P := scenario) march_2025 5 0%nat).
  reflexivity.
Defined.

(** X5 on the scenario: two calls of [handleFetchMore] end the run, three
    more change nothing. *)
Lemma run_saturates_scenario :
  InfiniteQuery.run (P := scenario)
    (useRoomRateAvailabilityCalendar march_2025) (2 + 3) 0%nat
  = InfiniteQuery.run (P := scenario)
      (useRoomRateAvailabilityCalendar march_2025) 2 0%nat.
Proof.
  apply (run_saturates (P := scenario) march_2025 2 3 0%nat
           {| InfiniteQuery.pages := [page_1; page_2; page_3];
              InfiniteQuery.pageParams := [0; 11; 21]%float |});
    reflexivity.
Defined.

(** X6 on the scenario: the run with two calls extends the run with one. *)
Lemma run_extends_scenario :
  exists morepages moreparams,
    [page_1; page_2; page_3] = ([page_1; page_2] ++ morepages)%list
    /\ [0; 11; 21]%float = ([0; 11]%float ++ moreparams)%list
    /\ List.length morepages = List.length moreparams
    /\ (List.length morepages <= 1)%nat.
Proof.
  apply (run_extends (P := scenario) march_2025 1 1 0%nat
           {| InfiniteQuery.pages := [page_1; page_2];
              InfiniteQuery.pageParams := [0; 11]%float |}
           {| InfiniteQuery.pages := [page_1; page_2; page_3];
              InfiniteQuery.pageParams := [0; 11; 21]%float |});
    reflexivity.
Defined.

(** The scenario's server holds its three pages behind the cursor 0. *)
Lemma scenario_serves :
  serves (P := scenario) 0%float [page_1; page_2; page_3].
Proof.
  split.
  { intros req w H. change (toString (P := scenario) 0%float) with "0" in H.
    change (Fetch (Platform := scenario) req w) with (scenario_server req w).
    unfold scenario_server. rewrite H. reflexivity. }
  exists 11%float. split; [reflexivity|]. split; [reflexivity|]. split.
  { intros req w H. change (toString (P := scenario) 11%float) with "11" in H.
    change (Fetch (Platform := scenario) req w) with (scenario_server req w).
    unfold scenario_server. rewrite H. reflexivity. }
  exists 21%float. split; [reflexivity|]. split; [reflexivity|]. split.
  { intros req w H. change (toString (P := scenario) 21%float) with "21" in H.
    change (Fetch (Platform := scenario) req w) with (scenario_server req w).
    unfold scenario_server. rewrite H. reflexivity. }
  reflexivity.
Defined.

(** X8 on the scenario: its three pages are collected. *)
Lemma fetchNextPages_collects_all_pages_scenario :
  exists d,
    outcome
      ((d0 <- InfiniteQuery.fetchFirstPage (P := scenario)
                (useRoomRateAvailabilityCalendar march_2025) ;;
        fetchNextPages (useRoomRateAvailabilityCalendar march_2025) 4 d0)
         0%nat)
    = Fulfilled d
    /\ InfiniteQuery.pages d = [page_1; page_2; page_3]
    /\ InfiniteQuery.hasNextPage (P := scenario)
         (useRoomRateAvailabilityCalendar march_2025) d = false.
Proof.
  apply (fetchNextPages_collects_all_pages (P := scenario) march_2025
           {| resource :=
                "https://api.example.com/api/v1/property/42/rate-calendar/assessment";
              search := "" |}
           [page_1; page_2; page_3] 4 0%nat eq_refl scenario_serves).
  cbn [List.length]. lia.
Defined.

(** X9 on the second and the third request of the scenario. *)
Lemma requests_differ_only_in_cursor_scenario :
  "GET" = "GET"
  /\ "GET" = "GET"
  /\ "https://api.example.com/api/v1/property/42/rate-calendar/assessment"
     = "https://api.example.com/api/v1/property/42/rate-calendar/assessment"
  /\ exists sd ed c1 c2,
       urlencoded_parse
         "start_date=2025-03-01&end_date=2025-03-31&cursor=11&fields=id%2Cname%2Crate"
       = [ ("start_date", sd); ("end_date", ed); ("cursor", c1);
           ("fields", "id,name,rate") ]
       /\ urlencoded_parse
            "start_date=2025-03-01&end_date=2025-03-31&cursor=21&fields=id%2Cname%2Crate"
          = [ ("start_date", sd); ("end_date", ed); ("cursor", c2);
              ("fields", "id,name,rate") ].
Proof.
  apply (requests_differ_only_in_cursor (P := scenario) march_2025
           {| pageParam := Some 11%float |} {| pageParam := Some 21%float |}
           0%nat 1%nat
           {| method := "GET";
              url := {| resource :=
                          "https://api.example.com/api/v1/property/42/rate-calendar/assessment";
                        search :=
                          "start_date=2025-03-01&end_date=2025-03-31&cursor=11&fields=id%2Cname%2Crate" |} |}
           {| method := "GET";
              url := {| resource :=
                          "https://api.example.com/api/v1/property/42/rate-calendar/assessment";
                        search :=
                          "start_date=2025-03-01&end_date=2025-03-31&cursor=21&fields=id%2Cname%2Crate" |} |});
    left; reflexivity.
Defined.


